(** * Verification of the movie box-office ETL pipeline

    A shallow embedding of [src/etl.py] (class [ETLPipeline]) and of
    [src/data_model_schemas.py] (class [TableSchemas]).

    - A pandas DataFrame is the list of its rows, in index order; where
      it is written to the database it carries its columns too.
    - A Python [dict] is an association list in insertion order with
      unique keys ([dict_set] keeps the position of a key that is
      already present, as Python does).
    - Python exceptions are the [Raise] results of the [result] monad.
    - Text cells of the revenue CSV are strings; the empty string stands
      for an empty cell.
    - Library calls whose exact behaviour no property here depends on
      (the per-process string hash, the date parsers, [json.dumps], the
      HTTP provider, the value binding of the SQL engine) are variables
      of the section; what can fail in them returns a [result]. *)

From stdpp Require Import base option list strings gmap.
From Stdlib Require Import ZArith Lia Ascii.

#[local] Set Warnings "-register-all".
Local Open Scope Z_scope.
Local Open Scope string_scope.
Disable Notation "x ++ y" : string_scope.

(** ** Python values, exceptions *)

(** A calendar date, [datetime.date]. *)
Record date := mk_date { d_year : Z; d_month : Z; d_day : Z }.

(** The values the provider's decoded JSON can hold, plus the dates the
    pipeline creates. A float is kept by its literal. *)
Inductive pyval :=
| VNone
| VBool (b : bool)
| VInt (z : Z)
| VFloat (lit : string)
| VStr (s : string)
| VDate (d : date)
| VList (l : list pyval)
| VDict (d : list (string * pyval)).

(** [RequestException] stands for the errors of the transport
    ([requests.exceptions]); a body that is no JSON raises a
    [JSONDecodeError], which is a [ValueError]. *)
Inductive exn :=
| KeyError | AttributeError | ValueError | TypeError | RequestException.

Inductive result (A : Type) :=
| OK (a : A)
| Raise (e : exn).
Arguments OK {A} a.
Arguments Raise {A} e.

#[global] Instance result_ret : MRet result := fun A a => OK a.
#[global] Instance result_bind : MBind result := fun A B f m =>
  match m with
  | OK a => f a
  | Raise e => Raise e
  end.

(** [for x in l: st = f st x], stopping at the first exception. *)
Fixpoint foldM {A S : Type} (f : S -> A -> result S) (l : list A) (st : S)
  : result S :=
  match l with
  | [] => OK st
  | x :: l' => st' ← f st x; foldM f l' st'
  end.

(** [[f x for x in l]], stopping at the first exception. *)
Fixpoint mapM_result {A B : Type} (f : A -> result B) (l : list A)
  : result (list B) :=
  match l with
  | [] => OK []
  | x :: l' => y ← f x; ys ← mapM_result f l'; OK (y :: ys)
  end.

(** ** Python strings *)

(** [s.split(sep)] for a non-empty [sep]: cut at every occurrence of
    [sep], scanning from the left; [skip] counts the characters of a
    matched separator still to be passed over, [cur] is the piece being
    read. *)
Fixpoint split_go (sep : string) (skip : nat) (cur s : string) : list string :=
  match s with
  | EmptyString => [cur]
  | String c s' =>
      match skip with
      | S k => split_go sep k cur s'
      | O =>
          if String.prefix sep s
          then cur :: split_go sep (String.length sep - 1) "" s'
          else split_go sep 0 (cur +:+ String c "") s'
      end
  end.

Definition str_split (s sep : string) : list string := split_go sep 0 "" s.

(** [s.replace(old, new)]: every occurrence of [old], from the left,
    without overlap. *)
Fixpoint replace_go (old new : string) (skip : nat) (s : string) : string :=
  match s with
  | EmptyString =>
      match skip, old with
      | O, EmptyString => new
      | _, _ => ""
      end
  | String c s' =>
      match skip with
      | S k => replace_go old new k s'
      | O =>
          if String.prefix old s
          then new +:+
               match old with
               | EmptyString => String c (replace_go old new 0 s')
               | _ => replace_go old new (String.length old - 1) s'
               end
          else String c (replace_go old new 0 s')
      end
  end.

Definition str_replace (s old new : string) : string := replace_go old new 0 s.

(** Method calls on a value that may not be a [str]: any other value has
    no such attribute. *)
Definition py_split (v : pyval) (sep : string) : result (list string) :=
  match v with
  | VStr s => OK (str_split s sep)
  | _ => Raise AttributeError
  end.

Definition py_replace (v : pyval) (old new : string) : result pyval :=
  match v with
  | VStr s => OK (VStr (str_replace s old new))
  | _ => Raise AttributeError
  end.

(** [v == s] for a string literal [s]. *)
Definition py_eq_str (v : pyval) (s : string) : bool :=
  match v with
  | VStr s' => bool_decide (s' = s)
  | _ => false
  end.

(** ** Python dicts *)

Definition dict (V : Type) := list (string * V).

Fixpoint dict_lookup {V} (d : dict V) (k : string) : option V :=
  match d with
  | [] => None
  | (k', v) :: d' => if decide (k' = k) then Some v else dict_lookup d' k
  end.

(** [k in d] *)
Definition dict_mem {V} (d : dict V) (k : string) : bool :=
  bool_decide (is_Some (dict_lookup d k)).

(** [d[k] = v] *)
Fixpoint dict_set {V} (d : dict V) (k : string) (v : V) : dict V :=
  match d with
  | [] => [(k, v)]
  | (k', v') :: d' =>
      if decide (k' = k) then (k, v) :: d' else (k', v') :: dict_set d' k v
  end.

(** [d[k]] *)
Definition dict_getitem {V} (d : dict V) (k : string) : result V :=
  match dict_lookup d k with
  | Some v => OK v
  | None => Raise KeyError
  end.

(** [d.get(k, default)] and [d.get(k)] *)
Definition get_default (d : dict pyval) (k : string) (dflt : pyval) : pyval :=
  default dflt (dict_lookup d k).

Definition get (d : dict pyval) (k : string) : pyval := get_default d k VNone.

(** [dict(zip(keys, values))] *)
Definition dict_of_pairs {V} (l : list (string * V)) : dict V :=
  fold_left (fun d kv => dict_set d kv.1 kv.2) l [].

(** ** pandas helpers *)

(** [Series.drop_duplicates()] with the default [keep="first"]: a value
    is kept unless it was seen at an earlier position. *)
Fixpoint drop_duplicates_from {A} `{EqDecision A} (seen l : list A) : list A :=
  match l with
  | [] => []
  | x :: l' =>
      if decide (x ∈ seen) then drop_duplicates_from seen l'
      else x :: drop_duplicates_from (x :: seen) l'
  end.

Definition drop_duplicates {A} `{EqDecision A} (l : list A) : list A :=
  drop_duplicates_from [] l.

(** Position of the first occurrence, as [list.index]. *)
Fixpoint first_index {A} `{EqDecision A} (x : A) (l : list A) : option nat :=
  match l with
  | [] => None
  | y :: l' => if decide (y = x) then Some O else S <$> first_index x l'
  end.

(** [DataFrame.head(n)] *)
Definition head_rows {A} (n : nat) (df : list A) : list A := take n df.

(** ** The revenue input and the tables built from it *)

Record RevenueRecord := {
  r_id : string;
  r_title : string;
  r_date : string;
  r_revenue : pyval;
  r_theaters : pyval;
  r_distributor : string
}.

Record DistributorRow := {
  distributor_name : string;
  distributor_id : Z
}.

Record FactRow := {
  f_id : string;
  f_movie_id : Z;
  f_revenue : pyval;
  f_theaters : pyval;
  f_distributor_id : Z;
  f_date : option date
}.

(** A pandas [Timestamp]: a calendar date and the time of day in
    nanoseconds. *)
Record Timestamp := { ts_date : date; ts_time : Z }.

(** What [pd.to_datetime] makes of one cell: a timestamp, [NaT] for an
    empty cell, or an error for text it cannot parse. *)
Inductive parsed :=
| Parsed (ts : Timestamp)
| NaT
| Unparsable.

(** One answer of the metadata provider: the HTTP status and what
    [response.json()] gives, the decoded body or the error of a body
    that is no JSON. *)
Record Response := { status_code : Z; json : result pyval }.

(** A frame as it is written to the database: its columns, in order,
    and its rows. *)
Record Frame := { columns : list string; rows : list (dict pyval) }.

Record GenreRow := { genre_id : Z; genre_name : string }.

Record BridgeRow := { b_movie_id : pyval; b_genre_id : Z }.

(** A row of a frame built from dict literals: column name to cell. *)
Definition Row := dict pyval.

(** ** [TableSchemas] *)

Inductive sqltype := SqlInteger | SqlString | SqlDate | SqlFloat | SqlText.

Definition TableSchemas : dict (dict sqltype) :=
  [("dim_movies",
     [("movie_id", SqlInteger); ("title", SqlString); ("year", SqlInteger);
      ("released", SqlDate); ("runtime_minutes", SqlInteger);
      ("director", SqlString); ("writer", SqlString); ("actors", SqlString);
      ("plot", SqlText); ("language", SqlString); ("country", SqlString);
      ("awards", SqlString); ("ratings", SqlString); ("metascore", SqlInteger);
      ("imdb_rating", SqlFloat); ("imdb_votes", SqlInteger);
      ("box_office_total", SqlString); ("production", SqlString);
      ("website", SqlString); ("poster", SqlString)]);
   ("dim_genres", [("genre_id", SqlInteger); ("genre_name", SqlString)]);
   ("bridge_movie_genre", [("movie_id", SqlInteger); ("genre_id", SqlInteger)]);
   ("dim_distributor",
     [("distributor_id", SqlInteger); ("distributor_name", SqlString)]);
   ("fact_revenues",
     [("id", SqlString); ("movie_id", SqlInteger); ("revenue", SqlInteger);
      ("theaters", SqlFloat); ("distributor_id", SqlInteger);
      ("date", SqlDate)])].

(** [TableSchemas.get_schema]: the [KeyError] of an unknown member name
    is turned into a [ValueError]. *)
Definition get_schema (table_name : string) : result (dict sqltype) :=
  match dict_lookup TableSchemas table_name with
  | Some schema => OK schema
  | None => Raise ValueError
  end.

(** The type of a column of a table made by [to_sql]: the one the
    [dtype] argument gives for a column of that name, or else one that
    pandas infers from the data. *)
Inductive column_type :=
| Declared (t : sqltype)
| Inferred.

(** A table of the database: its columns with their types, and its
    rows. *)
Definition Table : Type := list (string * column_type) * list Row.

(** The columns of the table [to_sql] creates for a frame: the columns
    of the frame, in the order of the frame; entries of [dtype] for other
    names are not used. *)
Definition table_columns (dtype : dict sqltype) (cols : list string)
  : list (string * column_type) :=
  map (fun c => (c, match dict_lookup dtype c with
                    | Some t => Declared t
                    | None => Inferred
                    end)) cols.

(** [pd.DataFrame(rows)] for a list of dicts: the columns are the keys
    in the order in which they are first met; an empty list gives a frame
    without columns. *)
Definition dict_frame (rows : list Row) : Frame :=
  {| columns := drop_duplicates (flat_map (map fst) rows); rows := rows |}.

(** The typed frames as rows of cells, columns in frame order. *)
Definition date_cell (d : option date) : pyval :=
  match d with
  | Some d => VDate d
  | None => VNone
  end.

Definition distributor_rows (df : list DistributorRow) : list Row :=
  map (fun d => [("distributor_name", VStr (distributor_name d));
                 ("distributor_id", VInt (distributor_id d))]) df.

Definition fact_rows (df : list FactRow) : list Row :=
  map (fun f => [("id", VStr (f_id f)); ("movie_id", VInt (f_movie_id f));
                 ("revenue", f_revenue f); ("theaters", f_theaters f);
                 ("distributor_id", VInt (f_distributor_id f));
                 ("date", date_cell (f_date f))]) df.

Definition genre_rows (df : list GenreRow) : list Row :=
  map (fun g => [("genre_id", VInt (genre_id g));
                 ("genre_name", VStr (genre_name g))]) df.

Definition bridge_rows (df : list BridgeRow) : list Row :=
  map (fun b => [("movie_id", b_movie_id b);
                 ("genre_id", VInt (b_genre_id b))]) df.

(** The frames that come from column selections keep their columns when
    they have no rows: [distributor_df] after the rename, and
    [df[["id", "movie_id", "revenue", "theaters", "distributor_id",
    "date"]]]. *)
Definition distributor_frame (df : list DistributorRow) : Frame :=
  {| columns := ["distributor_name"; "distributor_id"];
     rows := distributor_rows df |}.

Definition fact_frame (df : list FactRow) : Frame :=
  {| columns := ["id"; "movie_id"; "revenue"; "theaters"; "distributor_id";
                 "date"];
     rows := fact_rows df |}.

(** [process_distributors_data]: the distinct distributor names, their
    index after [reset_index(drop=True)] plus one as id. *)
Definition process_distributors_data (df : list RevenueRecord)
  : list DistributorRow :=
  let distributor_df := drop_duplicates (map r_distributor df) in
  imap (fun i name =>
          {| distributor_name := name; distributor_id := Z.of_nat i + 1 |})
       distributor_df.

(** [df.merge(distributor_df, left_on="distributor",
    right_on="distributor_name")]: inner join, rows in the order of the
    left frame. *)
Definition merge (df : list RevenueRecord) (distributor_df : list DistributorRow)
  : list (RevenueRecord * DistributorRow) :=
  flat_map
    (fun r =>
       map (fun d => (r, d))
           (filter (fun d => distributor_name d = r_distributor r) distributor_df))
    df.

Section Pipeline.

(** [hash] on strings, fixed for the life of the interpreter. *)
Variable py_hash : string -> Z.

(** The parts of [pd.to_datetime] on a column of texts: the guess of a
    format from one text ([None] when none is found), the strict parse of
    a text under a format, and the free parse of a text by [dateutil]. *)
Variable guess_datetime_format : string -> option string.
Variable strptime : string -> string -> option Timestamp.
Variable dateutil_parse : string -> option Timestamp.

(** [lambda t: hash(t) & 0xffffffff] *)
Definition movie_id_of (t : string) : Z := Z.land (py_hash t) 0xffffffff.

(** The format [pd.to_datetime] fixes for a column: the one guessed
    from its first cell that is not empty. *)
Definition column_format (col : list string) : option string :=
  match filter (fun s => s ≠ "") col with
  | [] => None
  | first :: _ => guess_datetime_format first
  end.

(** One cell under the format of its column: an empty cell is [NaT];
    any other is parsed strictly under the format, or by [dateutil] when
    no format was guessed. *)
Definition to_datetime (format : option string) (s : string) : parsed :=
  if decide (s = "") then NaT
  else match match format with
             | Some f => strptime f s
             | None => dateutil_parse s
             end with
       | Some ts => Parsed ts
       | None => Unparsable
       end.

(** [pd.to_datetime(col).dt.date]: the first cell that cannot be parsed
    raises; of a timestamp only the date is kept. *)
Definition to_datetime_dt_date (col : list string) : result (list (option date)) :=
  let format := column_format col in
  mapM_result
    (fun s =>
       match to_datetime format s with
       | Parsed ts => OK (Some (ts_date ts))
       | NaT => OK None
       | Unparsable => Raise ValueError
       end)
    col.

Definition process_revenue_data
    (df : list RevenueRecord) (distributor_df : list DistributorRow)
  : result (list FactRow * dict Z) :=
  let df := merge df distributor_df in
  let movie_id := map (fun rd => movie_id_of (r_title rd.1)) df in
  dates ← to_datetime_dt_date (map (fun rd => r_date rd.1) df);
  let movie_id_dict :=
    dict_of_pairs (zip (map (fun rd => r_title rd.1) df) movie_id) in
  let revenue_df :=
    zip_with
      (fun rd dt =>
         {| f_id := r_id rd.1;
            f_movie_id := movie_id_of (r_title rd.1);
            f_revenue := r_revenue rd.1;
            f_theaters := r_theaters rd.1;
            f_distributor_id := distributor_id rd.2;
            f_date := dt |})
      df dates in
  OK (revenue_df, movie_id_dict).

(** The format fixed for the date column of the joined frame. *)
Definition joined_format
    (df : list RevenueRecord) (distributor_df : list DistributorRow)
  : option string :=
  column_format (map (fun rd => r_date rd.1) (merge df distributor_df)).

(** The fact row made of a joined row and its date, in a column parsed
    under [format]. *)
Definition fact_of (format : option string)
    (rd : RevenueRecord * DistributorRow) (f : FactRow) : Prop :=
  f_id f = r_id rd.1 ∧
  f_movie_id f = movie_id_of (r_title rd.1) ∧
  f_revenue f = r_revenue rd.1 ∧
  f_theaters f = r_theaters rd.1 ∧
  f_distributor_id f = distributor_id rd.2 ∧
  match to_datetime format (r_date rd.1) with
  | Parsed ts => f_date f = Some (ts_date ts)
  | NaT => f_date f = None
  | Unparsable => False
  end.

(** *** MetadataEnricher *)

Variable omdbapi : string.

(** [requests.get]: an answer, or the error of the transport. *)
Variable requests_get : string -> result Response.

(** Nothing is caught: an error of the transport, a body that is no
    JSON, and a decoded body that is no object (it has no [get]) all come
    out of the function. *)
Definition get_movie_data (title : string) : result (option (dict pyval)) :=
  let url_title := omdbapi +:+ "&t=" +:+ title in
  response ← requests_get url_title;
  if decide (status_code response = 200) then
    data ← json response;
    match data with
    | VDict data =>
        if py_eq_str (get data "Response") "True" then OK (Some data)
        else OK None
    | _ => Raise AttributeError
    end
  else OK None.

(** Truth value of [get_movie_data]'s result: [None] and the empty
    dict are false. *)
Definition truthy (data : option (dict pyval)) : bool :=
  match data with
  | Some (_ :: _) => true
  | _ => false
  end.

(** The list comprehension over [movies.items()]: the titles are asked
    one after the other, and the first error ends it. *)
Fixpoint fetch_ombdapi_data (movies : dict Z) : result (list (dict pyval)) :=
  match movies with
  | [] => OK []
  | (title, movie_id) :: movies' =>
      data ← get_movie_data title;
      records ← fetch_ombdapi_data movies';
      OK (match (if truthy data then data else None) with
          | Some data => dict_set data "movie_id" (VInt movie_id) :: records
          | None => records
          end)
  end.

(** *** MovieNormalizer *)

(** [pd.to_datetime(v, format="%d %b %Y").date()] *)
Variable to_datetime_format_date : pyval -> result pyval.
Variable json_dumps : pyval -> string.

(** Body of [for genre in genres]. *)
Definition genre_step (movie_id : pyval)
    (st : dict Z * list BridgeRow) (genre : string)
  : result (dict Z * list BridgeRow) :=
  let '(dim_genres, bridge_movie_genre) := st in
  let dim_genres :=
    if bool_decide (genre ≠ "") && negb (dict_mem dim_genres genre)
    then dict_set dim_genres genre (Z.of_nat (length dim_genres) + 1)
    else dim_genres in
  genre_id ← dict_getitem dim_genres genre;
  OK (dim_genres,
      bridge_movie_genre ++ [{| b_movie_id := movie_id; b_genre_id := genre_id |}]).

(** The dict literal appended to [dim_movies]; its values are
    evaluated in the order written. *)
Definition movie_row (data : dict pyval) : result Row :=
  let movie_id := get data "movie_id" in
  released ←
    (if negb (py_eq_str (get data "Released") "N/A")
     then to_datetime_format_date (get data "Released")
     else OK VNone);
  runtime_minutes ←
    (if negb (py_eq_str (get data "Runtime") "N/A")
     then py_replace (get_default data "Runtime" VNone) " min" ""
     else OK VNone);
  let ratings := VStr (json_dumps (get_default data "Ratings" (VList []))) in
  let imdb_rating :=
    if negb (py_eq_str (get data "imdbRating") "N/A")
    then get data "imdbRating" else VNone in
  imdb_votes ← py_replace (get data "imdbVotes") "," "";
  box_office_total ←
    (if negb (py_eq_str (get data "BoxOffice") "N/A")
     then v ← py_replace (get_default data "BoxOffice" (VStr "")) "$" "";
          py_replace v "," ""
     else OK VNone);
  OK [("movie_id", movie_id);
      ("title", get data "Title");
      ("year", get data "Year");
      ("released", released);
      ("runtime_minutes", runtime_minutes);
      ("director", get data "Director");
      ("writer", get data "Writer");
      ("actors", get data "Actors");
      ("plot", get data "Plot");
      ("language", get data "Language");
      ("country", get data "Country");
      ("awards", get data "Awards");
      ("ratings", ratings);
      ("metascore", get data "Metascore");
      ("imdb_rating", imdb_rating);
      ("imdb_votes", imdb_votes);
      ("box_office_total", box_office_total);
      ("production", get data "Production");
      ("website", get data "Website");
      ("poster", get data "Poster")].

(** Body of [for data in movies_data]. *)
Definition movie_step
    (st : dict Z * list Row * list BridgeRow) (data : dict pyval)
  : result (dict Z * list Row * list BridgeRow) :=
  let '(dim_genres, dim_movies, bridge_movie_genre) := st in
  let movie_id := get data "movie_id" in
  genres ← py_split (get_default data "Genre" (VStr "")) ", ";
  '(dim_genres, bridge_movie_genre) ←
    foldM (genre_step movie_id) genres (dim_genres, bridge_movie_genre);
  row ← movie_row data;
  OK (dim_genres, dim_movies ++ [row], bridge_movie_genre).

(** One cell under [DataFrame.replace(['N/A', ''], None)]. *)
Definition replace_cell (v : pyval) : pyval :=
  if py_eq_str v "N/A" || py_eq_str v "" then VNone else v.

Definition replace_na (df : list Row) : list Row :=
  map (map (fun kv => (kv.1, replace_cell kv.2))) df.

Definition process_movies_data (movies_data : list (dict pyval))
  : result (list Row * list GenreRow * list BridgeRow) :=
  '(dim_genres, dim_movies, bridge_movie_genre) ←
    foldM movie_step movies_data ([], [], []);
  let dim_movies_df := replace_na dim_movies in
  let dim_genres_df :=
    map (fun kv => {| genre_id := kv.2; genre_name := kv.1 |}) dim_genres in
  let bridge_movie_genre_df := bridge_movie_genre in
  OK (dim_movies_df, dim_genres_df, bridge_movie_genre_df).

(** *** Persister *)

(** What the engine stores for the rows of a frame written to a new
    table with the given columns, or its error (a table it cannot create,
    a value it cannot bind). *)
Variable to_sql_insert :
  list (string * column_type) -> list Row -> result (list Row).

(** [df.to_sql(table_name, conn, if_exists="replace", index=False,
    dtype=table_schema)]: the table is dropped if it exists and
    created anew with the columns of the frame. *)
Definition save_to_sqlite (df : Frame) (table_name : string)
    (conn : gmap string Table) : result (gmap string Table) :=
  table_schema ← get_schema table_name;
  let table := table_columns table_schema (columns df) in
  stored ← to_sql_insert table (rows df);
  OK (<[table_name := (table, stored)]> conn).


(** [run] on the rows of the revenue file and the database as found;
    the result is the database after the five writes. *)
Definition run (csv : list RevenueRecord) (conn : gmap string Table)
  : result (gmap string Table) :=
  let revenue_df := head_rows 900 csv in
  let distributor_df := process_distributors_data revenue_df in
  '(fact_revenues_df, movie_id_dict) ←
    process_revenue_data revenue_df distributor_df;
  movies_data ← fetch_ombdapi_data movie_id_dict;
  '(dim_movies_df, dim_genres_df, bridge_movie_genre_df) ←
    process_movies_data movies_data;
  foldM (fun conn '(table_name, df) => save_to_sqlite df table_name conn)
        [("dim_movies", dict_frame dim_movies_df);
         ("dim_genres", dict_frame (genre_rows dim_genres_df));
         ("bridge_movie_genre", dict_frame (bridge_rows bridge_movie_genre_df));
         ("dim_distributor", distributor_frame distributor_df);
         ("fact_revenues", fact_frame fact_revenues_df)]
        conn.

End Pipeline.

(** ** Notions used in the statements *)

(** The provider resolved the title: transport status 200 and a positive
    [Response] flag in the record. *)
Definition resolved (response : Response) (data : dict pyval) : Prop :=
  status_code response = 200 ∧ json response = OK (VDict data) ∧
  get data "Response" = VStr "True".

(** The genre names of one record, as the loop sees them. *)
Definition genres_of (data : dict pyval) : list string :=
  match get_default data "Genre" (VStr "") with
  | VStr s => str_split s ", "
  | _ => []
  end.

(** Names paired with 1, 2, 3, ... *)
Definition enumerate (names : list string) : dict Z :=
  imap (fun i g => (g, Z.of_nat i + 1)) names.

(** State of the genre dict after the names [ns] have gone through the
    loop: the distinct names in first-seen order, numbered from 1, and no
    empty name among them. *)
Definition genres_inv (ns : list string) (dim_genres : dict Z) : Prop :=
  dim_genres = enumerate (drop_duplicates ns) ∧ "" ∉ ns.

(** What the loops add to the bridge: rows of the records just read,
    with ids that are in the genre dict. *)
Definition bridge_ok (movie_ids : list pyval) (dg : dict Z) (b : BridgeRow)
  : Prop :=
  b_movie_id b ∈ movie_ids ∧ b_genre_id b ∈ map snd dg.

(** The member names of [TableSchemas]. *)
Definition table_names : list string :=
  ["dim_movies"; "dim_genres"; "bridge_movie_genre"; "dim_distributor";
   "fact_revenues"].

(** [sep.join(pieces)] *)
Fixpoint str_join (sep : string) (pieces : list string) : string :=
  match pieces with
  | [] => ""
  | [p] => p
  | p :: rest => p +:+ sep +:+ str_join sep rest
  end.

(** [c in s] for a character [c]. *)
Fixpoint char_in (c : Ascii.ascii) (s : string) : Prop :=
  match s with
  | EmptyString => False
  | String c' s' => c' = c ∨ char_in c s'
  end.

(** The (movie id, genre name) pairs of the input, record after record:
    one for every name in a record's Genre field. *)
Definition genre_occurrences (md : list (dict pyval)) : list (pyval * string) :=
  flat_map (fun data => map (fun g => (get data "movie_id", g)) (genres_of data)) md.

(** ** Sample data

    Two revenue rows, title "A" at distributor "X" and title "B" at
    distributor "Y"; the provider resolves "A" with genres
    "Drama, War" and does not resolve "B". The library calls are fixed to
    sample functions that cover the values of this run. *)

Fixpoint sum_codes (s : string) : Z :=
  match s with
  | EmptyString => 0
  | String c s' => Z.of_nat (Ascii.nat_of_ascii c) + sum_codes s'
  end.

Definition sample_hash (s : string) : Z := sum_codes s * 7919 - 5000000000.

Definition sample_guess_datetime_format (s : string) : option string :=
  if decide (s = "2020-12-25") then Some "%Y-%m-%d"
  else if decide (s = "2020-12-26") then Some "%Y-%m-%d"
  else if decide (s = "2020-12-26 18:30") then Some "%Y-%m-%d %H:%M"
  else None.

Definition sample_dateutil_parse (s : string) : option Timestamp :=
  if decide (s = "2020-12-25") then
    Some {| ts_date := mk_date 2020 12 25; ts_time := 0 |}
  else if decide (s = "2020-12-26") then
    Some {| ts_date := mk_date 2020 12 26; ts_time := 0 |}
  else if decide (s = "2020-12-26 18:30") then
    Some {| ts_date := mk_date 2020 12 26; ts_time := 66600000000000 |}
  else None.

Definition sample_strptime (format s : string) : option Timestamp :=
  if decide (sample_guess_datetime_format s = Some format)
  then sample_dateutil_parse s
  else None.

Definition sample_to_datetime_format_date (v : pyval) : result pyval :=
  match v with
  | VStr s =>
      if decide (s = "25 Dec 2020") then OK (VDate (mk_date 2020 12 25))
      else Raise ValueError
  | _ => Raise AttributeError
  end.

Definition sample_json_dumps (v : pyval) : string :=
  match v with
  | VList [] => "[]"
  | _ => "[{...}]"
  end.

Definition sample_record_A : dict pyval :=
  [("Title", VStr "A"); ("Year", VStr "2020"); ("Released", VStr "25 Dec 2020");
   ("Runtime", VStr "148 min"); ("Genre", VStr "Drama, War");
   ("Director", VStr "N/A"); ("Ratings", VList []); ("Metascore", VStr "N/A");
   ("imdbRating", VStr "8.1"); ("imdbVotes", VStr "1,234,567");
   ("BoxOffice", VStr "$1,000,000"); ("Website", VStr "");
   ("Response", VStr "True")].

Definition sample_record_B : dict pyval :=
  [("Response", VStr "False"); ("Error", VStr "Movie not found!")].

Definition sample_omdbapi : string := "http://www.omdbapi.com/?apikey=KEY".

Definition sample_requests_get (url : string) : result Response :=
  if decide (url = sample_omdbapi +:+ "&t=A") then
    OK {| status_code := 200; json := OK (VDict sample_record_A) |}
  else if decide (url = sample_omdbapi +:+ "&t=B") then
    OK {| status_code := 200; json := OK (VDict sample_record_B) |}
  else OK {| status_code := 401; json := OK (VDict []) |}.

(** Providers that fail: one that answers 200 with a page that is no
    JSON, one that cannot be reached, one that answers 200 with a JSON
    list. *)
Definition sample_requests_get_page (url : string) : result Response :=
  OK {| status_code := 200; json := Raise ValueError |}.

Definition sample_requests_get_down (url : string) : result Response :=
  Raise RequestException.

Definition sample_requests_get_list (url : string) : result Response :=
  OK {| status_code := 200; json := OK (VList []) |}.

Definition sample_to_sql_insert
    (table : list (string * column_type)) (df : list Row)
  : result (list Row) := OK df.

Definition sample_csv : list RevenueRecord :=
  [ {| r_id := "r1"; r_title := "A"; r_date := "2020-12-25";
       r_revenue := VInt 100; r_theaters := VFloat "12.0"; r_distributor := "X" |};
    {| r_id := "r2"; r_title := "B"; r_date := "2020-12-26";
       r_revenue := VInt 200; r_theaters := VNone; r_distributor := "Y" |} ].

(** The same rows with the second date in another format. *)
Definition sample_csv_two_formats : list RevenueRecord :=
  [ {| r_id := "r1"; r_title := "A"; r_date := "2020-12-25";
       r_revenue := VInt 100; r_theaters := VFloat "12.0"; r_distributor := "X" |};
    {| r_id := "r2"; r_title := "B"; r_date := "2020-12-26 18:30";
       r_revenue := VInt 200; r_theaters := VNone; r_distributor := "Y" |} ].


Definition sample_movies_data : list (dict pyval) :=
  [dict_set sample_record_A "movie_id" (VInt 3590449327)].

Definition sample_dim_movies : list Row :=
  [[("movie_id", VInt 3590449327); ("title", VStr "A"); ("year", VStr "2020");
    ("released", VDate (mk_date 2020 12 25)); ("runtime_minutes", VStr "148");
    ("director", VNone); ("writer", VNone); ("actors", VNone); ("plot", VNone);
    ("language", VNone); ("country", VNone); ("awards", VNone);
    ("ratings", VStr "[]"); ("metascore", VNone); ("imdb_rating", VStr "8.1");
    ("imdb_votes", VStr "1234567"); ("box_office_total", VStr "1000000");
    ("production", VNone); ("website", VNone); ("poster", VNone)]].

Definition sample_dim_genres : list GenreRow :=
  [ {| genre_id := 1; genre_name := "Drama" |};
    {| genre_id := 2; genre_name := "War" |} ].

Definition sample_bridge : list BridgeRow :=
  [ {| b_movie_id := VInt 3590449327; b_genre_id := 1 |};
    {| b_movie_id := VInt 3590449327; b_genre_id := 2 |} ].

Definition sample_fact : list FactRow :=
  [ {| f_id := "r1"; f_movie_id := 3590449327; f_revenue := VInt 100;
       f_theaters := VFloat "12.0"; f_distributor_id := 1;
       f_date := Some (mk_date 2020 12 25) |};
    {| f_id := "r2"; f_movie_id := 3590457246; f_revenue := VInt 200;
       f_theaters := VNone; f_distributor_id := 2;
       f_date := Some (mk_date 2020 12 26) |} ].

Definition sample_movie_id_dict : dict Z :=
  [("A", 3590449327); ("B", 3590457246)].


(** * Properties *)

(** ** String methods on sample values *)

Example split_two : str_split "Drama, War" ", " = ["Drama"; "War"].
Proof. reflexivity. Qed.

Example split_empty : str_split "" ", " = [""].
Proof. reflexivity. Qed.

Example split_trailing : str_split "Drama, " ", " = ["Drama"; ""].
Proof. reflexivity. Qed.

Example replace_min : str_replace "148 min" " min" "" = "148".
Proof. reflexivity. Qed.

Example replace_commas : str_replace "1,234,567" "," "" = "1234567".
Proof. reflexivity. Qed.

Example replace_empty_old : str_replace "ab" "" "-" = "-a-b-".
Proof. reflexivity. Qed.

(** ** First-seen order of [drop_duplicates] *)

Section DropDuplicates.
Context {A : Type} `{EqDecision A}.
Implicit Types (l seen : list A) (x y : A).

Lemma elem_of_drop_duplicates_from seen l x :
  x ∈ drop_duplicates_from seen l ↔ x ∈ l ∧ x ∉ seen.
Proof.
  revert seen. induction l as [|y l IH]; intros seen; simpl.
  - rewrite elem_of_nil. tauto.
  - destruct (decide (y ∈ seen)) as [Hy|Hy].
    + rewrite IH, elem_of_cons. split; [tauto|].
      intros [[->|?] ?]; tauto.
    + rewrite elem_of_cons, IH, !elem_of_cons. split.
      * intros [->|[? ?]]; tauto.
      * intros [[->|?] ?]; [tauto|].
        destruct (decide (x = y)); tauto.
Qed.

Lemma NoDup_drop_duplicates_from seen l : NoDup (drop_duplicates_from seen l).
Proof.
  revert seen. induction l as [|y l IH]; intros seen; simpl.
  - constructor.
  - destruct (decide (y ∈ seen)); [apply IH|].
    constructor; [|apply IH].
    rewrite elem_of_drop_duplicates_from, elem_of_cons. tauto.
Qed.

(** The value at position [i] of the result was met for the first time
    when exactly the [i] values before it had been kept. *)
Lemma drop_duplicates_from_lookup seen l i x :
  drop_duplicates_from seen l !! i = Some x →
  ∃ l1 l2, l = l1 ++ (x :: l2) ∧ (x ∉ l1) ∧ (x ∉ seen) ∧
           drop_duplicates_from seen l1 = take i (drop_duplicates_from seen l).
Proof.
  revert seen i. induction l as [|y l IH]; intros seen i; simpl; [done|].
  destruct (decide (y ∈ seen)) as [Hy|Hy].
  - intros Hi. destruct (IH _ _ Hi) as (l1 & l2 & -> & Hx1 & Hxs & Heq).
    exists (y :: l1), l2. split_and!; [done| |done|].
    + rewrite elem_of_cons. intros [->|?]; tauto.
    + simpl. by rewrite decide_True.
  - destruct i as [|i]; simpl.
    + intros [= ->]. exists [], l. split_and!; [done| |done|done].
      apply not_elem_of_nil.
    + intros Hi. destruct (IH _ _ Hi) as (l1 & l2 & -> & Hx1 & Hxs & Heq).
      rewrite elem_of_cons in Hxs.
      exists (y :: l1), l2. split_and!; [done| |tauto|].
      * rewrite elem_of_cons. tauto.
      * simpl. rewrite decide_False by done. by rewrite Heq.
Qed.

Lemma first_index_split l1 l2 x :
  x ∉ l1 → first_index x (l1 ++ x :: l2) = Some (length l1).
Proof.
  induction l1 as [|y l1 IH]; simpl; intros Hx.
  - by rewrite decide_True.
  - rewrite elem_of_cons in Hx. rewrite decide_False by (intros ->; tauto).
    rewrite IH by tauto. done.
Qed.

Lemma first_index_elem_of l1 l2 x :
  x ∈ l1 → ∃ p, first_index x (l1 ++ l2) = Some p ∧ (p < length l1)%nat.
Proof.
  induction l1 as [|y l1 IH]; simpl; intros Hx.
  - by apply elem_of_nil in Hx.
  - destruct (decide (y = x)) as [->|Hne].
    + exists O. split; [done|lia].
    + apply elem_of_cons in Hx as [->|Hx]; [done|].
      destruct (IH Hx) as (p & -> & Hp). exists (S p). split; [done|lia].
Qed.

Lemma drop_duplicates_lookup l i x :
  drop_duplicates l !! i = Some x →
  ∃ l1 l2, l = l1 ++ (x :: l2) ∧ (x ∉ l1) ∧
           drop_duplicates l1 = take i (drop_duplicates l).
Proof.
  intros Hi. apply drop_duplicates_from_lookup in Hi.
  destruct Hi as (l1 & l2 & ? & ? & _ & ?). eauto.
Qed.

Lemma drop_duplicates_lt l i j x y :
  drop_duplicates l !! i = Some x → drop_duplicates l !! j = Some y →
  (i < j)%nat →
  ∃ p q, first_index x l = Some p ∧ first_index y l = Some q ∧ (p < q)%nat.
Proof.
  intros Hi Hj Hij.
  destruct (drop_duplicates_lookup _ _ _ Hj) as (b1 & b2 & Hl & Hy & Hb).
  assert (x ∈ b1) as Hx.
  { assert (x ∈ drop_duplicates b1) as Hx.
    { rewrite Hb. apply list_elem_of_lookup. exists i.
      rewrite lookup_take_lt by done. done. }
    apply elem_of_drop_duplicates_from in Hx. tauto. }
  destruct (first_index_elem_of b1 (y :: b2) x Hx) as (p & Hp & Hlt).
  exists p, (length b1). rewrite Hl. split_and!; [done| |done].
  by apply first_index_split.
Qed.

(** Positions in the result are ordered as the first occurrences in
    the input. *)
Lemma drop_duplicates_order l i j x y :
  drop_duplicates l !! i = Some x → drop_duplicates l !! j = Some y →
  (i < j)%nat ↔
  ∃ p q, first_index x l = Some p ∧ first_index y l = Some q ∧ (p < q)%nat.
Proof.
  intros Hi Hj. split; [by eapply drop_duplicates_lt|].
  intros (p & q & Hp & Hq & Hpq).
  destruct (Nat.lt_trichotomy i j) as [?|[->|Hji]]; [done| |].
  - simplify_eq. lia.
  - destruct (drop_duplicates_lt _ _ _ _ _ Hj Hi Hji)
      as (q' & p' & Hq' & Hp' & ?).
    simplify_eq. lia.
Qed.

Lemma drop_duplicates_from_proper seen1 seen2 l :
  (∀ x, x ∈ seen1 ↔ x ∈ seen2) →
  drop_duplicates_from seen1 l = drop_duplicates_from seen2 l.
Proof.
  revert seen1 seen2. induction l as [|y l IH]; intros s1 s2 Hs; simpl; [done|].
  destruct (decide (y ∈ s1)) as [H1|H1], (decide (y ∈ s2)) as [H2|H2].
  - by apply IH.
  - by apply Hs in H1.
  - by apply Hs in H2.
  - f_equal. apply IH. intros x. rewrite !elem_of_cons, Hs. done.
Qed.

Lemma drop_duplicates_from_app seen l1 l2 :
  drop_duplicates_from seen (l1 ++ l2) =
  drop_duplicates_from seen l1 ++ drop_duplicates_from (l1 ++ seen) l2.
Proof.
  revert seen. induction l1 as [|y l1 IH]; intros seen; simpl; [done|].
  destruct (decide (y ∈ seen)) as [Hy|Hy].
  - rewrite IH. f_equal. apply drop_duplicates_from_proper.
    intros x. rewrite elem_of_cons. split; [tauto|].
    intros [->|?]; [|done]. apply elem_of_app. tauto.
  - rewrite IH. simpl. do 2 f_equal. apply drop_duplicates_from_proper.
    intros x. rewrite elem_of_cons, !elem_of_app, elem_of_cons. tauto.
Qed.

End DropDuplicates.

(** ** DistributorNormalizer *)

Lemma process_distributors_data_lookup df i :
  process_distributors_data df !! i =
  (fun name => {| distributor_name := name; distributor_id := Z.of_nat i + 1 |})
    <$> drop_duplicates (map r_distributor df) !! i.
Proof. unfold process_distributors_data. by rewrite list_lookup_imap. Qed.

Lemma process_distributors_data_names df :
  map distributor_name (process_distributors_data df) =
  drop_duplicates (map r_distributor df).
Proof.
  apply list_eq. intros i.
  rewrite list_lookup_fmap, process_distributors_data_lookup.
  by destruct (drop_duplicates (map r_distributor df) !! i).
Qed.

(** C1. The distributor dimension holds every distinct distributor name
    of the input exactly once; the row at position [i] has id [i + 1],
    so the ids are 1, 2, 3, ... without gaps; and ids grow in the order
    in which the names are first met in the input. *)
Theorem process_distributors_data_dense_first_seen (df : list RevenueRecord) :
  let names := map r_distributor df in
  let out := process_distributors_data df in
  NoDup (map distributor_name out) ∧
  (∀ name, name ∈ map distributor_name out ↔ name ∈ names) ∧
  (∀ i row, out !! i = Some row → distributor_id row = Z.of_nat i + 1) ∧
  (∀ a b, a ∈ out → b ∈ out →
     distributor_id a < distributor_id b ↔
     ∃ p q, first_index (distributor_name a) names = Some p ∧
            first_index (distributor_name b) names = Some q ∧ (p < q)%nat).
Proof.
  intros names out. subst out.
  rewrite process_distributors_data_names. fold names.
  split_and!.
  - apply NoDup_drop_duplicates_from.
  - intros name. unfold drop_duplicates.
    rewrite elem_of_drop_duplicates_from, elem_of_nil. tauto.
  - intros i row. rewrite process_distributors_data_lookup.
    destruct (drop_duplicates _ !! i); intros [= <-]; done.
  - intros a b [i Ha]%list_elem_of_lookup [j Hb]%list_elem_of_lookup.
    rewrite process_distributors_data_lookup in Ha, Hb. fold names in Ha, Hb.
    destruct (drop_duplicates names !! i) as [x|] eqn:Hi; [|done].
    destruct (drop_duplicates names !! j) as [y|] eqn:Hj; [|done].
    injection Ha as <-. injection Hb as <-. simpl.
    rewrite <- (drop_duplicates_order names i j x y Hi Hj). lia.
Qed.

Example process_distributors_data_example :
  process_distributors_data
    [ {| r_id := "a"; r_title := "A"; r_date := "2020-01-01";
         r_revenue := VInt 10; r_theaters := VNone; r_distributor := "X" |};
      {| r_id := "b"; r_title := "B"; r_date := "2020-01-02";
         r_revenue := VInt 20; r_theaters := VNone; r_distributor := "Y" |};
      {| r_id := "c"; r_title := "A"; r_date := "2020-01-03";
         r_revenue := VInt 30; r_theaters := VNone; r_distributor := "X" |} ]
  = [ {| distributor_name := "X"; distributor_id := 1 |};
      {| distributor_name := "Y"; distributor_id := 2 |} ].
Proof. reflexivity. Qed.

(** ** Results of loops *)

Lemma foldM_cons {A S} (f : S -> A -> result S) x l st :
  foldM f (x :: l) st = f st x ≫= foldM f l.
Proof. done. Qed.

Lemma foldM_OK_cons {A S} (f : S -> A -> result S) x l st st1 st' :
  f st x = OK st1 → foldM f l st1 = OK st' → foldM f (x :: l) st = OK st'.
Proof. intros H1 H2. rewrite foldM_cons, H1. exact H2. Qed.

Lemma foldM_OK_inv {A S} (f : S -> A -> result S) x l st st' :
  foldM f (x :: l) st = OK st' →
  ∃ st1, f st x = OK st1 ∧ foldM f l st1 = OK st'.
Proof. rewrite foldM_cons. destruct (f st x); [by eauto|done]. Qed.

Lemma mapM_result_OK {A B} (f : A -> result B) l ys :
  mapM_result f l = OK ys ↔ Forall2 (fun x y => f x = OK y) l ys.
Proof.
  revert ys. induction l as [|x l IH]; intros ys; simpl.
  - split.
    + intros [= <-]. constructor.
    + intros Hnil. by inversion Hnil.
  - destruct (f x) as [y|e] eqn:Hx; simpl.
    + destruct (mapM_result f l) as [ys'|e] eqn:Hl; simpl.
      * split.
        -- intros [= <-]. constructor; [done|]. by apply IH.
        -- intros Hc. inversion Hc as [|? y' ? ys'' Hy Hys]; subst.
           apply IH in Hys. congruence.
      * split; [done|].
        intros Hc. inversion Hc as [|? y' ? ys'' Hy Hys]; subst.
        apply IH in Hys. done.
    + split; [done|].
      intros Hc. inversion Hc; subst. congruence.
Qed.



Lemma Forall2_with_Forall_l {A B} (P : A -> Prop) (R : A -> B -> Prop) l k :
  Forall P l → Forall2 R l k → Forall2 (fun x y => P x ∧ R x y) l k.
Proof.
  intros HP HR. induction HR as [|x y l k Hxy _ IH]; [constructor|].
  inversion HP; subst. constructor; [done|]. by apply IH.
Qed.

(** ** Dicts *)

Lemma dict_lookup_set {V} (d : dict V) k v k' :
  dict_lookup (dict_set d k v) k' =
  if decide (k = k') then Some v else dict_lookup d k'.
Proof.
  induction d as [|[k0 v0] d IH]; simpl.
  - done.
  - destruct (decide (k0 = k)) as [->|Hne]; simpl.
    + by destruct (decide (k = k')).
    + rewrite IH. destruct (decide (k0 = k')) as [->|]; [|done].
      by rewrite decide_False.
Qed.

Lemma dict_set_fresh {V} (d : dict V) k v :
  dict_lookup d k = None → dict_set d k v = d ++ [(k, v)].
Proof.
  induction d as [|[k0 v0] d IH]; simpl; [done|].
  destruct (decide (k0 = k)); [done|]. intros Hk. by rewrite IH.
Qed.

Lemma dict_lookup_keys {V} (d : dict V) k :
  is_Some (dict_lookup d k) ↔ k ∈ map fst d.
Proof.
  induction d as [|[k0 v0] d IH]; simpl.
  - rewrite elem_of_nil. split; [by intros [? ?]|done].
  - rewrite elem_of_cons. destruct (decide (k0 = k)) as [->|Hne].
    + split; [by left|by eexists].
    + rewrite IH. split; [tauto|]. intros [?|?]; [congruence|done].
Qed.

Lemma dict_lookup_elem_of {V} (d : dict V) k v :
  dict_lookup d k = Some v → (k, v) ∈ d.
Proof.
  induction d as [|[k0 v0] d IH]; simpl; [done|].
  destruct (decide (k0 = k)) as [->|Hne].
  - intros [= ->]. by left.
  - intros Hk. right. by apply IH.
Qed.

Lemma dict_of_pairs_lookup {V} (g : string -> V) (l : list (string * V)) t m :
  Forall (fun kv => kv.2 = g kv.1) l →
  dict_lookup (dict_of_pairs l) t = Some m → m = g t.
Proof.
  unfold dict_of_pairs.
  assert (∀ d, (∀ t m, dict_lookup d t = Some m → m = g t) →
          Forall (fun kv => kv.2 = g kv.1) l →
          dict_lookup (fold_left (fun d kv => dict_set d kv.1 kv.2) l d) t = Some m →
          m = g t) as Hgen.
  { induction l as [|[k v] l IH]; intros d Hd Hl; simpl.
    - apply Hd.
    - inversion Hl as [|? ? Hkv Hl']; subst. apply IH; [|done].
      intros t' m'. rewrite dict_lookup_set.
      destruct (decide (k = t')) as [->|]; [|apply Hd].
      intros [= <-]. done. }
  apply Hgen. done.
Qed.

(** ** RevenueTransformer *)

Lemma filter_none {A} (P : A -> Prop) `{∀ x, Decision (P x)} (l : list A) :
  (∀ x, x ∈ l → ¬ P x) → filter P l = [].
Proof.
  induction l as [|y l IH]; intros Hl; [done|].
  rewrite filter_cons_False by (apply Hl; by left).
  apply IH. intros x Hx. apply Hl. by right.
Qed.

Lemma filter_unique_name (dd : list DistributorRow) d :
  NoDup (map distributor_name dd) → d ∈ dd →
  filter (fun d' => distributor_name d' = distributor_name d) dd = [d].
Proof.
  induction dd as [|d0 dd IH]; simpl; intros Hnd Hd.
  - by apply elem_of_nil in Hd.
  - apply NoDup_cons in Hnd as [Hd0 Hnd].
    apply elem_of_cons in Hd as [->|Hd].
    + rewrite filter_cons_True by done. f_equal.
      apply filter_none. intros x Hx Heq. apply Hd0. rewrite <- Heq.
      apply list_elem_of_fmap. eauto.
    + rewrite filter_cons_False; [by apply IH|].
      intros Heq. apply Hd0. rewrite Heq.
      apply list_elem_of_fmap. eauto.
Qed.

(** With unique names in the dimension, a record whose distributor is in
    it joins with exactly one row. *)
Lemma merge_one_row_each df dd :
  NoDup (map distributor_name dd) →
  Forall (fun r => r_distributor r ∈ map distributor_name dd) df →
  Forall2 (fun r rd => rd.1 = r ∧ rd.2 ∈ dd ∧
                       distributor_name rd.2 = r_distributor r)
          df (merge df dd).
Proof.
  intros Hnd. induction 1 as [|r df Hr _ IH]; simpl; [constructor|].
  apply list_elem_of_fmap in Hr as (d & Hname & Hd).
  rewrite Hname, (filter_unique_name dd d Hnd Hd). simpl.
  constructor; [|done]. done.
Qed.

Lemma merge_own_dimension df :
  Forall2 (fun r rd => rd.1 = r ∧ rd.2 ∈ process_distributors_data df ∧
                       distributor_name rd.2 = r_distributor r)
          df (merge df (process_distributors_data df)).
Proof.
  apply merge_one_row_each; rewrite process_distributors_data_names.
  - apply NoDup_drop_duplicates_from.
  - apply Forall_forall. intros r Hr. unfold drop_duplicates.
    rewrite elem_of_drop_duplicates_from, elem_of_nil. split; [|tauto].
    apply list_elem_of_fmap. eauto.
Qed.

Section RevenueProperties.
Variable py_hash : string -> Z.
Variable guess_datetime_format : string -> option string.
Variable strptime : string -> string -> option Timestamp.
Variable dateutil_parse : string -> option Timestamp.

Local Abbreviation process_revenue :=
  (process_revenue_data py_hash guess_datetime_format strptime dateutil_parse).
Local Abbreviation cell := (to_datetime strptime dateutil_parse).
Local Abbreviation format_of := (joined_format guess_datetime_format).

Lemma movie_id_of_range t : 0 ≤ movie_id_of py_hash t < 2 ^ 32.
Proof.
  unfold movie_id_of. change 0xffffffff with (Z.ones 32).
  rewrite Z.land_ones by lia. apply Z.mod_pos_bound. lia.
Qed.

Lemma process_revenue_data_inv df dd fact d :
  process_revenue df dd = OK (fact, d) →
  ∃ dates,
    to_datetime_dt_date guess_datetime_format strptime dateutil_parse
      (map (fun rd => r_date rd.1) (merge df dd)) = OK dates ∧
    d = dict_of_pairs
          (zip (map (fun rd => r_title rd.1) (merge df dd))
               (map (fun rd => movie_id_of py_hash (r_title rd.1)) (merge df dd))) ∧
    fact = zip_with
             (fun rd dt =>
                {| f_id := r_id rd.1;
                   f_movie_id := movie_id_of py_hash (r_title rd.1);
                   f_revenue := r_revenue rd.1;
                   f_theaters := r_theaters rd.1;
                   f_distributor_id := distributor_id rd.2;
                   f_date := dt |})
             (merge df dd) dates.
Proof.
  unfold process_revenue_data.
  destruct (to_datetime_dt_date _ _ _ _) as [dates|e]; simpl; [|done].
  intros [= <- <-]. eauto.
Qed.

Lemma process_revenue_data_rows df dd fact d :
  process_revenue df dd = OK (fact, d) →
  Forall2 (fact_of py_hash strptime dateutil_parse (format_of df dd))
          (merge df dd) fact.
Proof.
  intros (dates & Hdates & _ & ->)%process_revenue_data_inv.
  unfold to_datetime_dt_date in Hdates. fold (format_of df dd) in Hdates.
  apply mapM_result_OK in Hdates. revert dates Hdates.
  generalize (format_of df dd) as format. intros format.
  induction (merge df dd) as [|rd m IH]; intros dates Hd.
  - inversion Hd; subst. constructor.
  - inversion Hd as [|? dt ? dates' Hdt Hd']; subst. simpl.
    constructor; [|by apply IH].
    unfold fact_of; simpl. split_and!; try done.
    destruct (cell format (r_date rd.1)); by simplify_eq.
Qed.




End RevenueProperties.

(** C3. The movie id is a function of the title alone and lies in
    [0, 2^32): equal titles give equal ids, every fact row carries the id
    of its record's title, and the title-to-id mapping handed to the
    enricher maps each title to that same id. Nothing is said about
    distinct titles. *)
Theorem movie_id_deterministic_32bit
    (py_hash : string -> Z)
    (guess_datetime_format : string -> option string)
    (strptime : string -> string -> option Timestamp)
    (dateutil_parse : string -> option Timestamp) :
  (∀ t, 0 ≤ movie_id_of py_hash t < 2 ^ 32) ∧
  (∀ t1 t2, t1 = t2 → movie_id_of py_hash t1 = movie_id_of py_hash t2) ∧
  (∀ df dd fact d,
     process_revenue_data py_hash guess_datetime_format strptime dateutil_parse
       df dd = OK (fact, d) →
     Forall2 (fun rd f => f_movie_id f = movie_id_of py_hash (r_title rd.1))
             (merge df dd) fact ∧
     Forall (fun f => 0 ≤ f_movie_id f < 2 ^ 32) fact ∧
     (∀ t m, dict_lookup d t = Some m → m = movie_id_of py_hash t)).
Proof.
  split_and!.
  - apply movie_id_of_range.
  - by intros t1 t2 ->.
  - intros df dd fact d Hok.
    pose proof (process_revenue_data_rows _ _ _ _ _ _ _ _ Hok) as Hrows.
    split_and!.
    + eapply Forall2_impl; [exact Hrows|]. by intros rd f (_ & ? & _).
    + eapply Forall2_Forall_r; [exact Hrows|].
      apply Forall_forall. intros rd _ f (_ & -> & _).
      apply movie_id_of_range.
    + apply process_revenue_data_inv in Hok as (dates & _ & -> & _).
      intros t m. apply dict_of_pairs_lookup. clear.
      induction (merge df dd) as [|rd l IH]; simpl; by constructor.
Qed.


(** C10. In a run the revenue frame is the head of the file and the
    distributor dimension is built from that same frame: every record
    matches exactly one distributor row, the join returns the records
    one for one in their order, and a fact table that is produced has
    one row per record, each with the record's id and measures and the id
    of the record's distributor. *)
Theorem revenue_join_drops_nothing
    (py_hash : string -> Z)
    (guess_datetime_format : string -> option string)
    (strptime : string -> string -> option Timestamp)
    (dateutil_parse : string -> option Timestamp)
    (csv : list RevenueRecord) :
  let revenue_df := head_rows 900 csv in
  let distributor_df := process_distributors_data revenue_df in
  (∀ r, r ∈ revenue_df →
     ∃ d, filter (fun d' => distributor_name d' = r_distributor r) distributor_df
          = [d]) ∧
  map fst (merge revenue_df distributor_df) = revenue_df ∧
  (∀ fact d,
     process_revenue_data py_hash guess_datetime_format strptime dateutil_parse
       revenue_df distributor_df = OK (fact, d) →
     length fact = length revenue_df ∧
     Forall2 (fun r f =>
                f_id f = r_id r ∧ f_revenue f = r_revenue r ∧
                f_theaters f = r_theaters r ∧
                ∃ dr, dr ∈ distributor_df ∧
                      distributor_name dr = r_distributor r ∧
                      f_distributor_id f = distributor_id dr)
             revenue_df fact).
Proof.
  intros revenue_df distributor_df.
  pose proof (merge_own_dimension revenue_df) as Hjoin.
  fold distributor_df in Hjoin.
  assert (NoDup (map distributor_name distributor_df)) as Hnd.
  { unfold distributor_df. rewrite process_distributors_data_names.
    apply NoDup_drop_duplicates_from. }
  split_and!.
  - intros r [i Hi]%list_elem_of_lookup.
    destruct (Forall2_lookup_l _ _ _ _ _ Hjoin Hi) as (rd & _ & _ & Hd & Hname).
    exists rd.2. rewrite <- Hname. by apply filter_unique_name.
  - clear Hnd. induction Hjoin as [|r rd l k (Heq & _) _ IH]; simpl; [done|].
    by rewrite Heq, IH.
  - intros fact d Hok.
    assert (Forall2 (fun r f =>
                f_id f = r_id r ∧ f_revenue f = r_revenue r ∧
                f_theaters f = r_theaters r ∧
                ∃ dr, dr ∈ distributor_df ∧
                      distributor_name dr = r_distributor r ∧
                      f_distributor_id f = distributor_id dr)
             revenue_df fact) as Hrows.
    { eapply Forall2_trans;
        [|exact Hjoin|exact (process_revenue_data_rows _ _ _ _ _ _ _ _ Hok)].
      intros r rd f (Heq & Hd & Hname) (Hid & _ & Hrev & Hth & Hdid & _).
      rewrite Heq in *. split_and!; [done..|]. exists rd.2. done. }
    split; [|done]. symmetry. by eapply Forall2_length.
Qed.

(** ** MetadataEnricher *)

Lemma py_eq_str_true v s : py_eq_str v s = true ↔ v = VStr s.
Proof.
  destruct v; simpl; try (split; [done|by intros [=]]).
  rewrite bool_decide_eq_true. split; [by intros ->|by intros [= ->]].
Qed.

Lemma get_set data k v k' :
  get (dict_set data k v) k' = if decide (k = k') then v else get data k'.
Proof.
  unfold get, get_default. rewrite dict_lookup_set. by destruct (decide (k = k')).
Qed.

Section EnricherProperties.
Variable omdbapi : string.
Variable requests_get : string -> result Response.

Local Abbreviation url_of title := (omdbapi +:+ "&t=" +:+ title).

Lemma get_movie_data_resolved title response data :
  requests_get (url_of title) = OK response → resolved response data →
  get_movie_data omdbapi requests_get title = OK (Some data).
Proof.
  intros Hget (Hstatus & Hjson & Hflag). unfold get_movie_data.
  rewrite Hget. simpl. rewrite decide_True by done. rewrite Hjson. simpl.
  apply py_eq_str_true in Hflag. by rewrite Hflag.
Qed.

Lemma get_movie_data_Some title data :
  get_movie_data omdbapi requests_get title = OK (Some data) →
  ∃ response, requests_get (url_of title) = OK response ∧ resolved response data.
Proof.
  unfold get_movie_data.
  destruct (requests_get (url_of title)) as [response|e]; simpl; [|done].
  destruct (decide (status_code response = 200)) as [Hs|]; [|done].
  destruct (json response) as [[| | | | | | |data']|e] eqn:Hjson; simpl;
    try done.
  destruct (py_eq_str (get data' "Response") "True") eqn:Hflag; [|done].
  intros [= <-]. exists response. split; [done|].
  split_and!; [done|done|]. by apply py_eq_str_true.
Qed.

Lemma fetch_ombdapi_data_cons title movie_id movies :
  fetch_ombdapi_data omdbapi requests_get ((title, movie_id) :: movies) =
  data ← get_movie_data omdbapi requests_get title;
  records ← fetch_ombdapi_data omdbapi requests_get movies;
  OK (match data with
      | Some (entry :: data) =>
          dict_set (entry :: data) "movie_id" (VInt movie_id) :: records
      | _ => records
      end).
Proof.
  cbn [fetch_ombdapi_data].
  destruct (get_movie_data omdbapi requests_get title) as [[[|entry data]|]|e];
    reflexivity.
Qed.

Lemma fetch_ombdapi_data_elem_of movies records record :
  fetch_ombdapi_data omdbapi requests_get movies = OK records →
  record ∈ records →
  ∃ title movie_id,
    (title, movie_id) ∈ movies ∧
    get record "movie_id" = VInt movie_id ∧
    get record "Response" = VStr "True".
Proof.
  revert records. induction movies as [|[title movie_id] movies IH];
    intros records.
  - intros [= <-] Hin. by apply elem_of_nil in Hin.
  - rewrite fetch_ombdapi_data_cons.
    destruct (get_movie_data omdbapi requests_get title) as [data|e] eqn:Hget;
      simpl; [|done].
    destruct (fetch_ombdapi_data omdbapi requests_get movies) as [rest|e];
      simpl; [|done].
    assert (record ∈ rest →
            ∃ title0 movie_id0,
              (title0, movie_id0) ∈ (title, movie_id) :: movies ∧
              get record "movie_id" = VInt movie_id0 ∧
              get record "Response" = VStr "True") as Hrest.
    { intros Hin. destruct (IH rest eq_refl Hin) as (t & m & ? & ? & ?).
      exists t, m. split; [by right|done]. }
    destruct data as [[|entry data]|]; intros [= <-]; [done| |done].
    intros [->|?]%elem_of_cons; [|by apply Hrest].
    exists title, movie_id. split_and!; [by left| |].
    + change (get (dict_set (entry :: data) "movie_id" (VInt movie_id))
                  "movie_id" = VInt movie_id).
      rewrite get_set. by rewrite decide_True.
    + change (get (dict_set (entry :: data) "movie_id" (VInt movie_id))
                  "Response" = VStr "True").
      rewrite get_set. rewrite decide_False by done.
      by apply get_movie_data_Some in Hget as (response & _ & _ & _ & ?).
Qed.

Lemma fetch_ombdapi_data_length movies records :
  fetch_ombdapi_data omdbapi requests_get movies = OK records →
  (length records ≤ length movies)%nat.
Proof.
  revert records. induction movies as [|[title movie_id] movies IH];
    intros records.
  - by intros [= <-].
  - rewrite fetch_ombdapi_data_cons.
    destruct (get_movie_data omdbapi requests_get title) as [data|e];
      simpl; [|done].
    destruct (fetch_ombdapi_data omdbapi requests_get movies) as [rest|e];
      simpl; [|done].
    specialize (IH rest eq_refl).
    destruct data as [[|entry data]|]; intros [= <-]; simpl; lia.
Qed.

(** What the function does with a title the provider answers in the
    expected way: a resolved title gives its record, with [movie_id] set
    to the id of the mapping; a title answered with another status, or
    with a record whose [Response] is not ["True"], gives nothing. *)
Lemma fetch_ombdapi_data_answered title movie_id movies response records :
  requests_get (url_of title) = OK response →
  fetch_ombdapi_data omdbapi requests_get movies = OK records →
  (∀ data, resolved response data →
     fetch_ombdapi_data omdbapi requests_get ((title, movie_id) :: movies)
     = OK (dict_set data "movie_id" (VInt movie_id) :: records)) ∧
  (status_code response ≠ 200 →
     fetch_ombdapi_data omdbapi requests_get ((title, movie_id) :: movies)
     = OK records) ∧
  (∀ data, json response = OK (VDict data) →
     get data "Response" ≠ VStr "True" →
     fetch_ombdapi_data omdbapi requests_get ((title, movie_id) :: movies)
     = OK records).
Proof.
  intros Hget Hrest. split_and!.
  - intros data Hres. rewrite fetch_ombdapi_data_cons.
    rewrite (get_movie_data_resolved _ _ _ Hget Hres), Hrest. simpl.
    destruct Hres as (_ & _ & Hflag). by destruct data.
  - intros Hstatus. rewrite fetch_ombdapi_data_cons. unfold get_movie_data.
    rewrite Hget. simpl. rewrite decide_False by done. simpl.
    by rewrite Hrest.
  - intros data Hjson Hflag. rewrite fetch_ombdapi_data_cons.
    unfold get_movie_data. rewrite Hget. simpl.
    destruct (decide (status_code response = 200)); simpl;
      [|by rewrite Hrest].
    rewrite Hjson. simpl.
    destruct (py_eq_str (get data "Response") "True") eqn:E.
    + by apply py_eq_str_true in E.
    + simpl. by rewrite Hrest.
Qed.

End EnricherProperties.

(** C5. The code does not skip every title it cannot resolve: nothing
    is caught in [get_movie_data], so for a mapping that starts with a
    title to which the provider answers 200 with a body that is no JSON,
    the whole fetch raises [ValueError]; when the provider cannot be
    reached it raises the error of the transport; and for a 200 with a
    JSON body that is no object it raises [AttributeError]. *)
Theorem fetch_ombdapi_data_raises_on_bad_answer
    (omdbapi title : string) (movie_id : Z) (movies : dict Z) :
  fetch_ombdapi_data omdbapi sample_requests_get_page ((title, movie_id) :: movies)
    = Raise ValueError ∧
  fetch_ombdapi_data omdbapi sample_requests_get_down ((title, movie_id) :: movies)
    = Raise RequestException ∧
  fetch_ombdapi_data omdbapi sample_requests_get_list ((title, movie_id) :: movies)
    = Raise AttributeError.
Proof. split_and!; reflexivity. Qed.

(** ** MovieNormalizer *)

Lemma enumerate_snoc names g :
  enumerate (names ++ [g]) = enumerate names ++ [(g, Z.of_nat (length names) + 1)].
Proof.
  unfold enumerate. rewrite imap_app. simpl. by rewrite Nat.add_0_r.
Qed.

Lemma enumerate_keys names : map fst (enumerate names) = names.
Proof.
  apply list_eq. intros i. unfold enumerate.
  rewrite list_lookup_fmap, list_lookup_imap. by destruct (names !! i).
Qed.

Lemma enumerate_length names : length (enumerate names) = length names.
Proof. unfold enumerate. by rewrite length_imap. Qed.

Lemma drop_duplicates_elem_of {A} `{EqDecision A} (l : list A) x :
  x ∈ drop_duplicates l ↔ x ∈ l.
Proof.
  unfold drop_duplicates. rewrite elem_of_drop_duplicates_from, elem_of_nil. tauto.
Qed.

Lemma drop_duplicates_snoc {A} `{EqDecision A} (l : list A) x :
  drop_duplicates (l ++ [x]) =
  if decide (x ∈ l) then drop_duplicates l else drop_duplicates l ++ [x].
Proof.
  unfold drop_duplicates. rewrite drop_duplicates_from_app, app_nil_r. simpl.
  destruct (decide (x ∈ l)); [|done]. by rewrite app_nil_r.
Qed.

Lemma genres_inv_keys ns dg k :
  genres_inv ns dg → is_Some (dict_lookup dg k) ↔ k ∈ ns.
Proof.
  intros [-> _].
  by rewrite dict_lookup_keys, enumerate_keys, drop_duplicates_elem_of.
Qed.

Section MovieProperties.
Variable to_datetime_format_date : pyval -> result pyval.
Variable json_dumps : pyval -> string.

Lemma genre_step_inv movie_id ns dg br g dg' br' :
  genres_inv ns dg →
  genre_step movie_id (dg, br) g = OK (dg', br') →
  genres_inv (ns ++ [g]) dg' ∧ (∀ kv, kv ∈ dg → kv ∈ dg') ∧
  ∃ gid, (g, gid) ∈ dg' ∧
         br' = br ++ [{| b_movie_id := movie_id; b_genre_id := gid |}].
Proof.
  intros Hinv. pose proof (genres_inv_keys _ _ g Hinv) as Hkeys.
  destruct Hinv as [Hdg Hne]. unfold genre_step, dict_mem.
  destruct (decide (g = "")) as [->|Hg].
  - rewrite bool_decide_false by (intros ?; done). simpl.
    unfold dict_getitem. destruct (dict_lookup dg "") eqn:Hl; simpl; [|done].
    destruct Hne. apply Hkeys. by eexists.
  - rewrite bool_decide_true by done. simpl.
    destruct (decide (g ∈ ns)) as [Hin|Hnin].
    + rewrite bool_decide_true by (by apply Hkeys). simpl.
      apply Hkeys in Hin as [gid Hgid]. unfold dict_getitem. rewrite Hgid. simpl.
      intros [= <- <-]. split_and!.
      * split.
        -- rewrite drop_duplicates_snoc. rewrite decide_True; [done|].
           apply Hkeys. by eexists.
        -- rewrite elem_of_app, list_elem_of_singleton.
           intros [?|?]; [done|congruence].
      * done.
      * exists gid. split; [|done]. by apply dict_lookup_elem_of.
    + rewrite bool_decide_false by (by rewrite Hkeys). simpl.
      unfold dict_getitem. rewrite dict_lookup_set, decide_True by done. simpl.
      intros [= <- <-].
      assert (dict_lookup dg g = None) as Hnone.
      { destruct (dict_lookup dg g) eqn:Hl; [|done].
        destruct Hnin. apply Hkeys. by eexists. }
      rewrite (dict_set_fresh _ _ _ Hnone). split_and!.
      * split.
        -- rewrite drop_duplicates_snoc, decide_False by done.
           rewrite enumerate_snoc, Hdg, enumerate_length. done.
        -- rewrite elem_of_app, list_elem_of_singleton.
           intros [?|?]; [done|congruence].
      * intros kv Hkv. apply elem_of_app. by left.
      * eexists. split; [|done]. apply elem_of_app. right. by left.
Qed.

Lemma bridge_ok_mono movie_ids movie_ids' dg dg' b :
  (∀ m, m ∈ movie_ids → m ∈ movie_ids') →
  (∀ kv, kv ∈ dg → kv ∈ dg') →
  bridge_ok movie_ids dg b → bridge_ok movie_ids' dg' b.
Proof.
  intros Hm Hdg [Hb1 Hb2]. split; [by apply Hm|].
  apply list_elem_of_fmap in Hb2 as (kv & -> & Hkv).
  apply list_elem_of_fmap. exists kv. split; [done|]. by apply Hdg.
Qed.

Lemma genre_loop_inv movie_id gs ns dg br dg' br' :
  genres_inv ns dg →
  foldM (genre_step movie_id) gs (dg, br) = OK (dg', br') →
  genres_inv (ns ++ gs) dg' ∧ (∀ kv, kv ∈ dg → kv ∈ dg') ∧
  ∃ new, br' = br ++ new ∧ Forall (bridge_ok [movie_id] dg') new.
Proof.
  revert ns dg br. induction gs as [|g gs IH]; intros ns dg br Hinv.
  - intros [= <- <-]. rewrite app_nil_r. split_and!; [done..|].
    exists []. by rewrite app_nil_r.
  - intros ([dg1 br1] & Hstep & Hrest)%foldM_OK_inv.
    destruct (genre_step_inv _ _ _ _ _ _ _ Hinv Hstep)
      as (Hinv1 & Hsub1 & gid & Hgid & ->).
    destruct (IH _ _ _ Hinv1 Hrest) as (Hinv2 & Hsub2 & new & -> & Hnew).
    rewrite <- app_assoc in Hinv2. split_and!; [done|by auto|].
    eexists. rewrite <- app_assoc. split; [done|]. simpl.
    constructor; [|done]. split; simpl; [by left|].
    apply list_elem_of_fmap. exists (g, gid). split; [done|]. by apply Hsub2.
Qed.

Lemma movie_step_inv data ns dg dm br dg' dm' br' :
  genres_inv ns dg →
  movie_step to_datetime_format_date json_dumps (dg, dm, br) data
    = OK (dg', dm', br') →
  genres_inv (ns ++ genres_of data) dg' ∧ (∀ kv, kv ∈ dg → kv ∈ dg') ∧
  (∃ row, movie_row to_datetime_format_date json_dumps data = OK row ∧
          dm' = dm ++ [row]) ∧
  ∃ new, br' = br ++ new ∧ Forall (bridge_ok [get data "movie_id"] dg') new.
Proof.
  intros Hinv. unfold movie_step, genres_of.
  destruct (get_default data "Genre" (VStr "")) as [| | | |s| | |]; simpl;
    try done.
  destruct (foldM _ _ _) as [[dg1 br1]|e] eqn:Hloop; simpl; [|done].
  destruct (movie_row _ _ data) as [row|e] eqn:Hrow; simpl; [|done].
  intros [= <- <- <-].
  destruct (genre_loop_inv _ _ _ _ _ _ _ Hinv Hloop) as (? & ? & ?).
  split_and!; [done|done|by eauto|done].
Qed.

Lemma movies_loop_inv md ns dg dm br dg' dm' br' :
  genres_inv ns dg →
  foldM (movie_step to_datetime_format_date json_dumps) md (dg, dm, br)
    = OK (dg', dm', br') →
  genres_inv (ns ++ flat_map genres_of md) dg' ∧ (∀ kv, kv ∈ dg → kv ∈ dg') ∧
  (∃ rows, Forall2 (fun data row =>
                      movie_row to_datetime_format_date json_dumps data = OK row)
                   md rows ∧
           dm' = dm ++ rows) ∧
  ∃ new, br' = br ++ new ∧
         Forall (bridge_ok (map (fun data => get data "movie_id") md) dg') new.
Proof.
  revert ns dg dm br. induction md as [|data md IH]; intros ns dg dm br Hinv.
  - intros [= <- <- <-]. rewrite !app_nil_r. split_and!; [done..| |].
    + exists []. by rewrite app_nil_r.
    + exists []. by rewrite app_nil_r.
  - intros ([[dg1 dm1] br1] & Hstep & Hrest)%foldM_OK_inv.
    destruct (movie_step_inv _ _ _ _ _ _ _ _ Hinv Hstep)
      as (Hinv1 & Hsub1 & (row & Hrow & ->) & new1 & -> & Hnew1).
    destruct (IH _ _ _ _ Hinv1 Hrest)
      as (Hinv2 & Hsub2 & (rows & Hrows & ->) & new2 & -> & Hnew2).
    rewrite <- app_assoc in Hinv2. split_and!; [done|by auto| |].
    + exists (row :: rows). rewrite <- app_assoc. split; [|done].
      by constructor.
    + exists (new1 ++ new2). rewrite <- app_assoc. split; [done|].
      apply Forall_app. split.
      * eapply Forall_impl; [exact Hnew1|]. intros b.
        apply bridge_ok_mono; [|done].
        intros m ->%list_elem_of_singleton. by left.
      * eapply Forall_impl; [exact Hnew2|]. intros b.
        apply bridge_ok_mono; [|done]. intros m Hm. by right.
Qed.

(** What a successful [process_movies_data] returns. *)
Lemma process_movies_data_inv md dm dg br :
  process_movies_data to_datetime_format_date json_dumps md = OK (dm, dg, br) →
  let names := flat_map genres_of md in
("" ∉ names) ∧
  dg = imap (fun i g => {| genre_id := Z.of_nat i + 1; genre_name := g |})
            (drop_duplicates names) ∧
  (∃ rows, Forall2 (fun data row =>
                      movie_row to_datetime_format_date json_dumps data = OK row)
                   md rows ∧
           dm = replace_na rows) ∧
  Forall (fun b => b_movie_id b ∈ map (fun data => get data "movie_id") md ∧
                   b_genre_id b ∈ map genre_id dg) br.
Proof.
  unfold process_movies_data.
  destruct (foldM _ md _) as [[[dg1 dm1] br1]|e] eqn:Hloop; simpl; [|done].
  intros [= <- <- <-].
  assert (genres_inv [] []) as Hinv0.
  { split; [done|]. apply not_elem_of_nil. }
  destruct (movies_loop_inv _ _ _ _ _ _ _ _ Hinv0 Hloop)
    as ([-> Hne] & _ & (rows & Hrows & ->) & new & -> & Hnew).
  simpl in *. split_and!; [done| |by eauto|].
  - apply list_eq. intros i. unfold enumerate.
    rewrite list_lookup_fmap, !list_lookup_imap.
    by destruct (drop_duplicates _ !! i).
  - eapply Forall_impl; [exact Hnew|]. intros b [Hb1 Hb2]. split; [done|].
    rewrite <- list_fmap_compose.
    apply list_elem_of_fmap in Hb2 as (kv & -> & Hkv).
    apply list_elem_of_fmap. by exists kv.
Qed.

End MovieProperties.

(** C2. When [process_movies_data] returns, the genre dimension lists the
    distinct non-empty genre names of the whole input, read record after
    record, each once: the row at position [i] has id [i + 1], ids grow
    in the order in which names are first met, the dimension is a
    function of that sequence of names alone, and the empty name is not
    in it. *)
Theorem process_movies_data_genre_ids
    (to_datetime_format_date : pyval -> result pyval)
    (json_dumps : pyval -> string)
    (md : list (dict pyval)) dm dg br :
  process_movies_data to_datetime_format_date json_dumps md = OK (dm, dg, br) →
  let names := filter (fun g => g ≠ "") (flat_map genres_of md) in
  dg = imap (fun i g => {| genre_id := Z.of_nat i + 1; genre_name := g |})
            (drop_duplicates names) ∧
  NoDup (map genre_name dg) ∧
  (∀ g, g ∈ map genre_name dg ↔ g ∈ names) ∧
  ("" ∉ map genre_name dg) ∧
  (∀ i row, dg !! i = Some row → genre_id row = Z.of_nat i + 1) ∧
  (∀ a b, a ∈ dg → b ∈ dg →
     genre_id a < genre_id b ↔
     ∃ p q, first_index (genre_name a) names = Some p ∧
            first_index (genre_name b) names = Some q ∧ (p < q)%nat).
Proof.
  intros (Hne & Hdg & _)%process_movies_data_inv names.
  assert (names = flat_map genres_of md) as Hnames.
  { unfold names. clear -Hne. induction (flat_map genres_of md) as [|g l IH];
      [done|].
    rewrite not_elem_of_cons in Hne. destruct Hne as [Hg Hl].
    rewrite filter_cons_True by done. by rewrite IH. }
  rewrite <- Hnames in Hdg.
  assert (∀ i, dg !! i =
    (fun g => {| genre_id := Z.of_nat i + 1; genre_name := g |})
      <$> drop_duplicates names !! i) as Hlookup.
  { intros i. by rewrite Hdg, list_lookup_imap. }
  assert (map genre_name dg = drop_duplicates names) as Hkeys.
  { apply list_eq. intros i. rewrite list_lookup_fmap, Hlookup.
    by destruct (drop_duplicates names !! i). }
  split_and!.
  - done.
  - rewrite Hkeys. apply NoDup_drop_duplicates_from.
  - intros g. by rewrite Hkeys, drop_duplicates_elem_of.
  - rewrite Hkeys, drop_duplicates_elem_of, Hnames. done.
  - intros i row. rewrite Hlookup.
    destruct (drop_duplicates names !! i); intros [= <-]; done.
  - intros a b [i Ha]%list_elem_of_lookup [j Hb]%list_elem_of_lookup.
    rewrite Hlookup in Ha, Hb.
    destruct (drop_duplicates names !! i) as [x|] eqn:Hi; [|done].
    destruct (drop_duplicates names !! j) as [y|] eqn:Hj; [|done].
    injection Ha as <-. injection Hb as <-. simpl.
    rewrite <- (drop_duplicates_order names i j x y Hi Hj). lia.
Qed.

(** *** Cells of the movie dimension *)

Lemma replace_cell_sentinel v :
  v = VStr "N/A" ∨ v = VStr "" → replace_cell v = VNone.
Proof. by intros [-> | ->]. Qed.

Lemma replace_cell_other v :
  v ≠ VStr "N/A" → v ≠ VStr "" → replace_cell v = v.
Proof.
  intros H1 H2. unfold replace_cell.
  destruct (py_eq_str v "N/A") eqn:E1; [by apply py_eq_str_true in E1|].
  destruct (py_eq_str v "") eqn:E2; [by apply py_eq_str_true in E2|]. done.
Qed.

Lemma get_replace_row (row : Row) col :
  get (map (fun kv => (kv.1, replace_cell kv.2)) row) col = replace_cell (get row col).
Proof.
  unfold get, get_default. induction row as [|[k v] row IH]; simpl; [done|].
  by destruct (decide (k = col)).
Qed.

Lemma replace_na_lookup (rows : list Row) i :
  replace_na rows !! i =
  map (fun kv => (kv.1, replace_cell kv.2)) <$> rows !! i.
Proof. unfold replace_na. by rewrite list_lookup_fmap. Qed.

Section MovieRowProperties.
Variable to_datetime_format_date : pyval -> result pyval.
Variable json_dumps : pyval -> string.

Local Ltac movie_row_cases :=
  unfold movie_row;
  repeat match goal with
         | |- context [mbind _ ?m] =>
             let E := fresh "E" in destruct m eqn:E; simpl; [|done]
         end;
  intros [= <-].

Lemma movie_row_movie_id data row :
  movie_row to_datetime_format_date json_dumps data = OK row →
  get row "movie_id" = get data "movie_id".
Proof. movie_row_cases. done. Qed.

Lemma movie_row_runtime_minutes data row :
  movie_row to_datetime_format_date json_dumps data = OK row →
  if py_eq_str (get data "Runtime") "N/A"
  then get row "runtime_minutes" = VNone
  else ∃ s, get data "Runtime" = VStr s ∧
            get row "runtime_minutes" = VStr (str_replace s " min" "").
Proof.
  movie_row_cases.
  match goal with
  | H : (if negb (py_eq_str (get data "Runtime") "N/A") then _ else _) = _ |- _ =>
      rename H into Hrt
  end.
  change (get_default data "Runtime" VNone) with (get data "Runtime") in Hrt.
  destruct (py_eq_str (get data "Runtime") "N/A"); simpl in Hrt.
  - by injection Hrt as <-.
  - destruct (get data "Runtime"); simpl in Hrt; try done.
    injection Hrt as <-. eauto.
Qed.

Lemma movie_row_imdb_votes data row :
  movie_row to_datetime_format_date json_dumps data = OK row →
  ∃ s, get data "imdbVotes" = VStr s ∧
       get row "imdb_votes" = VStr (str_replace s "," "").
Proof.
  movie_row_cases.
  match goal with
  | H : py_replace (get data "imdbVotes") _ _ = _ |- _ => rename H into Hv
  end.
  destruct (get data "imdbVotes"); simpl in Hv; try done.
  injection Hv as <-. eauto.
Qed.

End MovieRowProperties.

(** C4. For enriched records (each carries the integer [movie_id] the
    enricher set) on which [process_movies_data] returns: the genre id of
    every bridge row is an id of the genre dimension returned with it,
    and its movie id is the [movie_id] of a row of the movie dimension
    returned with it. *)
Theorem bridge_rows_reference_dimensions
    (to_datetime_format_date : pyval -> result pyval)
    (json_dumps : pyval -> string)
    (md : list (dict pyval)) dm dg br :
  Forall (fun data => ∃ m, get data "movie_id" = VInt m) md →
  process_movies_data to_datetime_format_date json_dumps md = OK (dm, dg, br) →
  Forall (fun b => b_genre_id b ∈ map genre_id dg ∧
                   b_movie_id b ∈ map (fun row => get row "movie_id") dm) br.
Proof.
  intros Htagged (_ & _ & (rows & Hrows & ->) & Hbr)%process_movies_data_inv.
  eapply Forall_impl; [exact Hbr|]. intros b [Hm Hg]. split; [done|].
  apply list_elem_of_fmap in Hm as (data & -> & [i Hi]%list_elem_of_lookup).
  destruct (Forall2_lookup_l _ _ _ _ _ Hrows Hi) as (row & Hrow & Hok).
  apply list_elem_of_fmap.
  exists (map (fun kv => (kv.1, replace_cell kv.2)) row). split.
  - rewrite get_replace_row, (movie_row_movie_id _ _ _ _ Hok).
    rewrite Forall_forall in Htagged.
    destruct (Htagged data) as [m ->]; [|done].
    apply list_elem_of_lookup. eauto.
  - apply list_elem_of_lookup. exists i. rewrite replace_na_lookup.
    by apply fmap_Some_2.
Qed.

(** C7. In the movie dimension returned for a list of records, the row
    of a record with Runtime ["148 min"] has runtime_minutes ["148"], of
    one with Runtime ["N/A"] has it null, of one with imdbVotes
    ["1,234,567"] has imdb_votes ["1234567"]; and each row is the
    assembled row of its record with every cell equal to ["N/A"] or to
    the empty string made null and every other cell unchanged. *)
Theorem movie_dimension_null_coercion
    (to_datetime_format_date : pyval -> result pyval)
    (json_dumps : pyval -> string)
    (md : list (dict pyval)) dm dg br :
  process_movies_data to_datetime_format_date json_dumps md = OK (dm, dg, br) →
  Forall2
    (fun data row =>
       (get data "Runtime" = VStr "148 min" →
        get row "runtime_minutes" = VStr "148") ∧
       (get data "Runtime" = VStr "N/A" → get row "runtime_minutes" = VNone) ∧
       (get data "imdbVotes" = VStr "1,234,567" →
        get row "imdb_votes" = VStr "1234567") ∧
       ∃ assembled,
         movie_row to_datetime_format_date json_dumps data = OK assembled ∧
         map fst row = map fst assembled ∧
         ∀ col,
           (get assembled col = VStr "N/A" ∨ get assembled col = VStr "" →
            get row col = VNone) ∧
           (get assembled col ≠ VStr "N/A" → get assembled col ≠ VStr "" →
            get row col = get assembled col))
    md dm.
Proof.
  intros (_ & _ & (rows & Hrows & ->) & _)%process_movies_data_inv.
  unfold replace_na. apply Forall2_fmap_r.
  eapply Forall2_impl; [exact Hrows|]. intros data row Hok.
  pose proof (movie_row_runtime_minutes _ _ _ _ Hok) as Hrt.
  destruct (movie_row_imdb_votes _ _ _ _ Hok) as (votes & Hvotes & Hrow_votes).
  split_and!.
  - intros Hdata. rewrite Hdata in Hrt. simpl in Hrt.
    destruct Hrt as (s & [= <-] & Hrow). by rewrite get_replace_row, Hrow.
  - intros Hdata. rewrite Hdata in Hrt. simpl in Hrt.
    by rewrite get_replace_row, Hrt.
  - intros Hdata. rewrite Hdata in Hvotes. injection Hvotes as <-.
    by rewrite get_replace_row, Hrow_votes.
  - exists row. split_and!; [done| |].
    + rewrite <- list_fmap_compose. done.
    + intros col. rewrite get_replace_row. split.
      * apply replace_cell_sentinel.
      * apply replace_cell_other.
Qed.

(** C6. [process_movies_data] raises on records that lack fields: with
    Genre missing or empty the lookup of the empty name in the genre dict
    raises [KeyError]; with Runtime or imdbVotes missing the call of
    [replace] on [None] raises [AttributeError]. *)
Theorem process_movies_data_raises_on_missing_fields
    (to_datetime_format_date : pyval -> result pyval)
    (json_dumps : pyval -> string) :
  let process := process_movies_data to_datetime_format_date json_dumps in
  process [[("Title", VStr "A"); ("Released", VStr "N/A");
            ("Runtime", VStr "148 min"); ("imdbVotes", VStr "1,234");
            ("Response", VStr "True"); ("movie_id", VInt 7)]]
    = Raise KeyError ∧
  process [[("Title", VStr "A"); ("Released", VStr "N/A");
            ("Runtime", VStr "148 min"); ("Genre", VStr "");
            ("imdbVotes", VStr "1,234");
            ("Response", VStr "True"); ("movie_id", VInt 7)]]
    = Raise KeyError ∧
  process [[("Title", VStr "A"); ("Released", VStr "N/A");
            ("Genre", VStr "Drama"); ("imdbVotes", VStr "1,234");
            ("Response", VStr "True"); ("movie_id", VInt 7)]]
    = Raise AttributeError ∧
  process [[("Title", VStr "A"); ("Released", VStr "N/A");
            ("Runtime", VStr "148 min"); ("Genre", VStr "Drama");
            ("Response", VStr "True"); ("movie_id", VInt 7)]]
    = Raise AttributeError.
Proof. intros process. split_and!; reflexivity. Qed.

(** No list with a record whose Genre is missing or empty gets through. *)
Lemma process_movies_data_empty_genre
    (to_datetime_format_date : pyval -> result pyval)
    (json_dumps : pyval -> string) (md : list (dict pyval)) data :
  data ∈ md → get_default data "Genre" (VStr "") = VStr "" →
  ∃ e, process_movies_data to_datetime_format_date json_dumps md = Raise e.
Proof.
  intros Hin Hgenre.
  destruct (process_movies_data _ _ md) as [[[dm dg] br]|e] eqn:Hok; [|by eauto].
  apply process_movies_data_inv in Hok as (Hne & _). destruct Hne.
  apply list_elem_of_In, in_flat_map. exists data. split.
  - by apply list_elem_of_In.
  - unfold genres_of. rewrite Hgenre. by left.
Qed.

(** ** Persister *)

Section PersisterProperties.
Variable to_sql_insert :
  list (string * column_type) -> list Row -> result (list Row).

Lemma save_to_sqlite_inv df table_name (conn conn' : gmap string Table) :
  save_to_sqlite to_sql_insert df table_name conn = OK conn' →
  ∃ schema stored,
    get_schema table_name = OK schema ∧
    to_sql_insert (table_columns schema (columns df)) (rows df) = OK stored ∧
    conn' = <[table_name := (table_columns schema (columns df), stored)]> conn.
Proof.
  unfold save_to_sqlite.
  destruct (get_schema table_name) as [schema|e]; simpl; [|done].
  destruct (to_sql_insert _ _) as [stored|e] eqn:Hins; simpl; [|done].
  intros [= <-]. by exists schema, stored.
Qed.

End PersisterProperties.

(** C9. When a frame and then a second frame are written to the same
    table, the table holds what the engine stores for the second frame
    and nothing of the first; the other tables are as they were; and the
    database is the one that writing the second frame alone gives. *)
Theorem save_to_sqlite_replaces
    (to_sql_insert : list (string * column_type) -> list Row -> result (list Row))
    (table_name : string) (df1 df2 : Frame)
    (conn conn1 conn2 : gmap string Table) :
  save_to_sqlite to_sql_insert df1 table_name conn = OK conn1 →
  save_to_sqlite to_sql_insert df2 table_name conn1 = OK conn2 →
  (∃ schema stored,
     get_schema table_name = OK schema ∧
     to_sql_insert (table_columns schema (columns df2)) (rows df2) = OK stored ∧
     conn2 !! table_name = Some (table_columns schema (columns df2), stored)) ∧
  (∀ other, other ≠ table_name → conn2 !! other = conn !! other) ∧
  save_to_sqlite to_sql_insert df2 table_name conn = OK conn2.
Proof.
  intros (schema1 & stored1 & Hs1 & Hins1 & ->)%save_to_sqlite_inv
         (schema2 & stored2 & Hs2 & Hins2 & ->)%save_to_sqlite_inv.
  split_and!.
  - exists schema2, stored2. split_and!; [done..|]. apply lookup_insert_eq.
  - intros other Hne. by rewrite !lookup_insert_ne.
  - unfold save_to_sqlite. rewrite Hs2. simpl. rewrite Hins2. simpl.
    by rewrite insert_insert_eq.
Qed.

Example get_schema_unknown : get_schema "dim_actors" = Raise ValueError.
Proof. reflexivity. Qed.

(** * A worked run on the sample data *)

Example sample_distributors :
  process_distributors_data sample_csv
  = [ {| distributor_name := "X"; distributor_id := 1 |};
      {| distributor_name := "Y"; distributor_id := 2 |} ].
Proof. reflexivity. Qed.

Example sample_revenue :
  process_revenue_data sample_hash sample_guess_datetime_format sample_strptime
    sample_dateutil_parse sample_csv (process_distributors_data sample_csv)
  = OK (sample_fact, sample_movie_id_dict).
Proof. vm_compute. reflexivity. Qed.

(** Dates that are each a date, but in two formats: the format of the
    first is fixed for the column and the second does not match it. *)
Example sample_revenue_two_formats :
  process_revenue_data sample_hash sample_guess_datetime_format sample_strptime
    sample_dateutil_parse sample_csv_two_formats
    (process_distributors_data sample_csv_two_formats)
  = Raise ValueError.
Proof. vm_compute. reflexivity. Qed.

Example sample_fetch :
  fetch_ombdapi_data sample_omdbapi sample_requests_get sample_movie_id_dict
  = OK sample_movies_data.
Proof. vm_compute. reflexivity. Qed.

Example sample_movies :
  process_movies_data sample_to_datetime_format_date sample_json_dumps
    sample_movies_data
  = OK (sample_dim_movies, sample_dim_genres, sample_bridge).
Proof. vm_compute. reflexivity. Qed.

Example sample_run :
  ∃ conn,
    run sample_hash sample_guess_datetime_format sample_strptime
        sample_dateutil_parse sample_omdbapi sample_requests_get
        sample_to_datetime_format_date sample_json_dumps sample_to_sql_insert
        sample_csv ∅ = OK conn ∧
    snd <$> conn !! "dim_movies" = Some sample_dim_movies ∧
    snd <$> conn !! "dim_genres" = Some (genre_rows sample_dim_genres) ∧
    snd <$> conn !! "bridge_movie_genre" = Some (bridge_rows sample_bridge) ∧
    length <$> (snd <$> conn !! "dim_distributor") = Some 2%nat ∧
    length <$> (snd <$> conn !! "fact_revenues") = Some 2%nat.
Proof.
  eexists. split; [vm_compute; reflexivity|].
  split_and!; vm_compute; reflexivity.
Qed.


Lemma process_movies_data_genre_ids_witness :
  process_movies_data sample_to_datetime_format_date sample_json_dumps
    sample_movies_data
  = OK (sample_dim_movies, sample_dim_genres, sample_bridge) ∧
  let names := filter (fun g => g ≠ "") (flat_map genres_of sample_movies_data) in
  sample_dim_genres
  = imap (fun i g => {| genre_id := Z.of_nat i + 1; genre_name := g |})
         (drop_duplicates names) ∧
  NoDup (map genre_name sample_dim_genres) ∧
  (∀ g, g ∈ map genre_name sample_dim_genres ↔ g ∈ names) ∧
  ("" ∉ map genre_name sample_dim_genres) ∧
  (∀ i row, sample_dim_genres !! i = Some row → genre_id row = Z.of_nat i + 1) ∧
  (∀ a b, a ∈ sample_dim_genres → b ∈ sample_dim_genres →
     genre_id a < genre_id b ↔
     ∃ p q, first_index (genre_name a) names = Some p ∧
            first_index (genre_name b) names = Some q ∧ (p < q)%nat).
Proof.
  assert (process_movies_data sample_to_datetime_format_date sample_json_dumps
            sample_movies_data
          = OK (sample_dim_movies, sample_dim_genres, sample_bridge)) as Hok.
  { vm_compute. reflexivity. }
  split; [exact Hok|].
  exact (process_movies_data_genre_ids _ _ _ _ _ _ Hok).
Defined.

Lemma bridge_rows_reference_dimensions_witness :
  Forall (fun data => ∃ m, get data "movie_id" = VInt m) sample_movies_data ∧
  Forall (fun b => b_genre_id b ∈ map genre_id sample_dim_genres ∧
                   b_movie_id b ∈ map (fun row => get row "movie_id")
                                      sample_dim_movies)
         sample_bridge.
Proof.
  assert (Forall (fun data => ∃ m, get data "movie_id" = VInt m)
                 sample_movies_data) as Htagged.
  { repeat constructor. eexists. vm_compute. reflexivity. }
  split; [exact Htagged|].
  apply (bridge_rows_reference_dimensions
           sample_to_datetime_format_date sample_json_dumps
           sample_movies_data sample_dim_movies sample_dim_genres sample_bridge
           Htagged).
  vm_compute. reflexivity.
Defined.

Lemma movie_dimension_null_coercion_witness :
  Forall2
    (fun data row =>
       (get data "Runtime" = VStr "148 min" →
        get row "runtime_minutes" = VStr "148") ∧
       (get data "Runtime" = VStr "N/A" → get row "runtime_minutes" = VNone) ∧
       (get data "imdbVotes" = VStr "1,234,567" →
        get row "imdb_votes" = VStr "1234567") ∧
       ∃ assembled,
         movie_row sample_to_datetime_format_date sample_json_dumps data
           = OK assembled ∧
         map fst row = map fst assembled ∧
         ∀ col,
           (get assembled col = VStr "N/A" ∨ get assembled col = VStr "" →
            get row col = VNone) ∧
           (get assembled col ≠ VStr "N/A" → get assembled col ≠ VStr "" →
            get row col = get assembled col))
    sample_movies_data sample_dim_movies.
Proof.
  apply (movie_dimension_null_coercion
           sample_to_datetime_format_date sample_json_dumps
           sample_movies_data sample_dim_movies sample_dim_genres sample_bridge).
  vm_compute. reflexivity.
Defined.

Lemma save_to_sqlite_replaces_witness :
  let df1 := dict_frame (genre_rows sample_dim_genres) in
  let df2 := dict_frame (genre_rows [ {| genre_id := 1; genre_name := "Comedy" |} ]) in
  let table := [("genre_id", Declared SqlInteger);
                ("genre_name", Declared SqlString)] in
  let conn1 : gmap string Table := <["dim_genres" := (table, rows df1)]> ∅ in
  let conn2 : gmap string Table := <["dim_genres" := (table, rows df2)]> conn1 in
  conn2 !! "dim_genres" = Some (table, rows df2) ∧
  save_to_sqlite sample_to_sql_insert df2 "dim_genres" ∅ = OK conn2.
Proof.
  intros df1 df2 table conn1 conn2.
  destruct (save_to_sqlite_replaces sample_to_sql_insert "dim_genres" df1 df2
              ∅ conn1 conn2) as ((schema' & stored & Hs & Hins & Hl) & _ & Hsame).
  - reflexivity.
  - reflexivity.
  - split; [|exact Hsame]. apply lookup_insert_eq.
Defined.

(** * Further properties *)

(** ** Schema registry and Persister *)

Lemma get_schema_OK_iff name :
  (∃ schema, get_schema name = OK schema) ↔ name ∈ table_names.
Proof.
  change table_names with (map fst TableSchemas).
  rewrite <- dict_lookup_keys. unfold get_schema.
  destruct (dict_lookup TableSchemas name) as [schema|].
  - split; [by eauto|]. intros _. by eexists.
  - split; [by intros [? ?]|]. by intros [? ?].
Qed.

Lemma get_schema_unknown_name name :
  name ∉ table_names → get_schema name = Raise ValueError.
Proof.
  intros Hno. unfold get_schema.
  destruct (dict_lookup TableSchemas name) as [schema|] eqn:Hl; [|done].
  destruct Hno. apply get_schema_OK_iff. unfold get_schema. rewrite Hl. eauto.
Qed.

(** X1. [get_schema] returns a schema exactly for the five member names
    of [TableSchemas], and the schema it returns has at least one column;
    for every other name it raises [ValueError] (the [KeyError] of the
    enum lookup never gets out). *)
Theorem get_schema_known_tables (name : string) :
  ((∃ schema, get_schema name = OK schema) ↔ name ∈ table_names) ∧
  (∀ schema, get_schema name = OK schema → schema ≠ []) ∧
  (get_schema name = Raise ValueError ↔ name ∉ table_names) ∧
  get_schema name ≠ Raise KeyError.
Proof.
  split_and!.
  - apply get_schema_OK_iff.
  - intros schema Hs.
    assert (name ∈ table_names) as Hin by (apply get_schema_OK_iff; eauto).
    unfold table_names in Hin.
    repeat (apply elem_of_cons in Hin as [->|Hin]);
      [| | | | |by apply elem_of_nil in Hin];
      vm_compute in Hs; injection Hs as <-; done.
  - split.
    + intros Hr Hin. apply get_schema_OK_iff in Hin as [schema Hs]. congruence.
    + apply get_schema_unknown_name.
  - unfold get_schema. by destruct (dict_lookup TableSchemas name).
Qed.

(** X2. Writing to a table that is not in the registry raises
    [ValueError] whatever the frame, the database and the engine: the
    schema is looked up before anything is written. *)
Theorem save_to_sqlite_unknown_table
    (to_sql_insert : list (string * column_type) -> list Row -> result (list Row))
    (df : Frame) (table_name : string) (conn : gmap string Table) :
  table_name ∉ table_names →
  save_to_sqlite to_sql_insert df table_name conn = Raise ValueError.
Proof.
  intros Hno. unfold save_to_sqlite.
  by rewrite (get_schema_unknown_name _ Hno).
Qed.

(** X3. Writes to two different tables do not depend on their order:
    if the first and then the second succeed, the second and then the
    first succeed too and give the same database. *)
Theorem save_to_sqlite_commute
    (to_sql_insert : list (string * column_type) -> list Row -> result (list Row))
    (df1 df2 : Frame) (name1 name2 : string)
    (conn conn1 conn12 : gmap string Table) :
  name1 ≠ name2 →
  save_to_sqlite to_sql_insert df1 name1 conn = OK conn1 →
  save_to_sqlite to_sql_insert df2 name2 conn1 = OK conn12 →
  ∃ conn2,
    save_to_sqlite to_sql_insert df2 name2 conn = OK conn2 ∧
    save_to_sqlite to_sql_insert df1 name1 conn2 = OK conn12.
Proof.
  intros Hne (schema1 & stored1 & Hs1 & Hins1 & ->)%save_to_sqlite_inv
             (schema2 & stored2 & Hs2 & Hins2 & ->)%save_to_sqlite_inv.
  exists (<[name2 := (table_columns schema2 (columns df2), stored2)]> conn).
  unfold save_to_sqlite. rewrite Hs1, Hs2. simpl. rewrite Hins1, Hins2. simpl.
  split; [done|]. f_equal. by apply insert_insert_ne.
Qed.

(** ** The whole run *)




Section MovieRowKeys.
Variable to_datetime_format_date : pyval -> result pyval.
Variable json_dumps : pyval -> string.



End MovieRowKeys.

Section RunProperties.
Variable py_hash : string -> Z.
Variable guess_datetime_format : string -> option string.
Variable strptime : string -> string -> option Timestamp.
Variable dateutil_parse : string -> option Timestamp.
Variable omdbapi : string.
Variable requests_get : string -> result Response.
Variable to_datetime_format_date : pyval -> result pyval.
Variable json_dumps : pyval -> string.
Variable to_sql_insert :
  list (string * column_type) -> list Row -> result (list Row).

Let run_here :=
  run py_hash guess_datetime_format strptime dateutil_parse omdbapi
      requests_get to_datetime_format_date json_dumps to_sql_insert.



(** X5. Only the first 900 rows of the revenue file are used: rows
    after them change nothing in what a run does. *)
Theorem run_head_limit csv more (conn : gmap string Table) :
  (900 ≤ length csv)%nat →
  run_here (csv ++ more) conn = run_here csv conn.
Proof.
  intros Hlen. unfold run_here, run, head_rows.
  by rewrite (take_app_le csv more 900 Hlen).
Qed.

(** X6. A run fails only in a transformation, in the fetch or in the
    engine, never in a schema lookup: when the revenue transformation,
    the fetch and the movie transformation return and the engine accepts
    every frame, the run returns a database. *)
Theorem run_returns csv (conn : gmap string Table) fact d md dm dg br :
  let revenue_df := head_rows 900 csv in
  process_revenue_data py_hash guess_datetime_format strptime dateutil_parse
    revenue_df (process_distributors_data revenue_df) = OK (fact, d) →
  fetch_ombdapi_data omdbapi requests_get d = OK md →
  process_movies_data to_datetime_format_date json_dumps md = OK (dm, dg, br) →
  (∀ table df, ∃ stored, to_sql_insert table df = OK stored) →
  ∃ conn', run_here csv conn = OK conn'.
Proof.
  intros revenue_df Hrev Hfetch Hmov Hins. unfold run_here, run.
  fold revenue_df. rewrite Hrev.
  change (OK (fact, d) ≫= ?k) with (k (fact, d)). cbv beta iota.
  rewrite Hfetch. change (OK md ≫= ?k) with (k md). cbv beta.
  rewrite Hmov.
  change (OK (dm, dg, br) ≫= ?k) with (k (dm, dg, br)). cbv beta iota.
  assert (∀ name df c, name ∈ table_names →
            ∃ c', save_to_sqlite to_sql_insert df name c = OK c') as Hsave.
  { intros name df c [schema Hs]%get_schema_OK_iff.
    destruct (Hins (table_columns schema (columns df)) (rows df))
      as [stored Hst].
    unfold save_to_sqlite. rewrite Hs. simpl. rewrite Hst. simpl. by eexists. }
  destruct (Hsave "dim_movies" (dict_frame dm) conn) as [c1 H1];
    [unfold table_names; by repeat constructor|].
  destruct (Hsave "dim_genres" (dict_frame (genre_rows dg)) c1) as [c2 H2];
    [unfold table_names; by repeat constructor|].
  destruct (Hsave "bridge_movie_genre" (dict_frame (bridge_rows br)) c2)
    as [c3 H3]; [unfold table_names; by repeat constructor|].
  destruct (Hsave "dim_distributor"
              (distributor_frame (process_distributors_data revenue_df)) c3)
    as [c4 H4]; [unfold table_names; by repeat constructor|].
  destruct (Hsave "fact_revenues" (fact_frame fact) c4) as [c5 H5];
    [unfold table_names; by repeat constructor|].
  exists c5.
  apply (foldM_OK_cons _ _ _ _ c1); [exact H1|].
  apply (foldM_OK_cons _ _ _ _ c2); [exact H2|].
  apply (foldM_OK_cons _ _ _ _ c3); [exact H3|].
  apply (foldM_OK_cons _ _ _ _ c4); [exact H4|].
  apply (foldM_OK_cons _ _ _ _ c5); [exact H5|]. done.
Qed.

End RunProperties.

(** ** Distributors, join and title mapping *)

(** X7. Ids already given do not change when rows are appended to the
    revenue frame: the dimension of the longer frame starts with the
    dimension of the shorter one, and the rows after it are for names the
    shorter frame does not have. *)
Theorem process_distributors_data_append (df more : list RevenueRecord) :
  ∃ rest,
    process_distributors_data (df ++ more) = process_distributors_data df ++ rest ∧
    ∀ row, row ∈ rest → distributor_name row ∉ map r_distributor df.
Proof.
  unfold process_distributors_data, drop_duplicates.
  rewrite fmap_app, drop_duplicates_from_app, imap_app.
  eexists. split; [done|].
  intros row [i Hi]%list_elem_of_lookup. rewrite list_lookup_imap in Hi.
  destruct (drop_duplicates_from _ _ !! i) as [name|] eqn:Hname; [|done].
  injection Hi as <-. simpl.
  apply list_elem_of_lookup_2, elem_of_drop_duplicates_from in Hname as [_ Hno].
  by rewrite app_nil_r in Hno.
Qed.

Lemma dict_set_keys {V} (d : dict V) k v :
  map fst (dict_set d k v) =
  if decide (k ∈ map fst d) then map fst d else map fst d ++ [k].
Proof.
  induction d as [|[k0 v0] d IH].
  - destruct (decide (k ∈ map fst [])) as [Hin|_]; [|done].
    by apply elem_of_nil in Hin.
  - cbn [dict_set]. destruct (decide (k0 = k)) as [->|Hne].
    + destruct (decide (k ∈ map fst ((k, v0) :: d))) as [_|Hno]; [done|].
      destruct Hno. by left.
    + change (map fst ((k0, v0) :: dict_set d k v))
        with (k0 :: map fst (dict_set d k v)).
      rewrite IH. change (map fst ((k0, v0) :: d)) with (k0 :: map fst d).
      destruct (decide (k ∈ map fst d)) as [Hin|Hnin],
               (decide (k ∈ k0 :: map fst d)) as [Hin'|Hnin']; try done.
      * destruct Hnin'. by right.
      * apply elem_of_cons in Hin' as [?|?]; [congruence|done].
Qed.

Lemma dict_set_elem_of {V} (d : dict V) k v kv :
  kv ∈ dict_set d k v → kv = (k, v) ∨ kv ∈ d.
Proof.
  induction d as [|[k0 v0] d IH]; simpl.
  - intros ->%list_elem_of_singleton. by left.
  - destruct (decide (k0 = k)) as [->|Hne].
    + intros [->|?]%elem_of_cons; [by left|]. right. by right.
    + intros [->|Hin]%elem_of_cons; [right; by left|].
      destruct (IH Hin) as [?|?]; [by left|]. right. by right.
Qed.

Lemma dict_of_pairs_keys {V} (l : list (string * V)) :
  map fst (dict_of_pairs l) = drop_duplicates (map fst l).
Proof.
  unfold dict_of_pairs, drop_duplicates.
  assert (∀ d : dict V,
            map fst (fold_left (fun d kv => dict_set d kv.1 kv.2) l d) =
            map fst d ++ drop_duplicates_from (map fst d) (map fst l)) as Hgen.
  { induction l as [|[k v] l IH]; intros d; simpl.
    - by rewrite app_nil_r.
    - rewrite IH, dict_set_keys.
      destruct (decide (k ∈ map fst d)) as [Hin|Hnin]; [done|].
      rewrite <- app_assoc. simpl. do 2 f_equal.
      apply drop_duplicates_from_proper. intros x.
      rewrite elem_of_app, !elem_of_cons, elem_of_nil. tauto. }
  apply Hgen.
Qed.

Lemma dict_of_pairs_elem_of {V} (l : list (string * V)) kv :
  kv ∈ dict_of_pairs l → kv ∈ l.
Proof.
  unfold dict_of_pairs.
  assert (∀ d : dict V,
            kv ∈ fold_left (fun d kv => dict_set d kv.1 kv.2) l d →
            kv ∈ d ∨ kv ∈ l) as Hgen.
  { induction l as [|[k v] l IH]; intros d; simpl; [by left|].
    intros [[->|?]%dict_set_elem_of|?]%IH.
    - right. by left.
    - by left.
    - right. by right. }
  intros [Hnil|?]%Hgen; [|done]. by apply elem_of_nil in Hnil.
Qed.

Lemma elem_of_zip_fmap {A B C} (f : A -> B) (g : A -> C) (l : list A) b c :
  (b, c) ∈ zip (map f l) (map g l) → ∃ x, x ∈ l ∧ b = f x ∧ c = g x.
Proof.
  induction l as [|x l IH]; simpl.
  - by intros ?%elem_of_nil.
  - intros [Heq|Hin]%elem_of_cons.
    + injection Heq as -> ->. exists x. split; [by left|done].
    + destruct (IH Hin) as (y & ? & ? & ?). exists y. split; [by right|done].
Qed.

(** Records without a row in the dimension add nothing to the join. *)
Lemma merge_filter df dd :
  merge df dd =
  merge (filter (fun r => r_distributor r ∈ map distributor_name dd) df) dd.
Proof.
  induction df as [|r df IH]; [done|].
  destruct (decide (r_distributor r ∈ map distributor_name dd)) as [Hin|Hno].
  - rewrite filter_cons_True by done. simpl. by rewrite IH.
  - rewrite filter_cons_False by done. simpl. rewrite <- IH.
    rewrite filter_none; [done|].
    intros d Hd Heq. apply Hno. rewrite <- Heq.
    apply list_elem_of_fmap. eauto.
Qed.

Lemma merge_nil_r df : merge df [] = [].
Proof. induction df as [|r df IH]; [done|]. simpl. by rewrite IH. Qed.

Section JoinProperties.
Variable py_hash : string -> Z.
Variable guess_datetime_format : string -> option string.
Variable strptime : string -> string -> option Timestamp.
Variable dateutil_parse : string -> option Timestamp.

Local Abbreviation process_revenue :=
  (process_revenue_data py_hash guess_datetime_format strptime dateutil_parse).

(** X8. The mapping from titles to movie ids handed to the enricher has
    one entry for every distinct title of the revenue frame, in the order
    in which the titles are first met, and each entry holds the id of its
    title. *)
Theorem movie_id_dict_distinct_titles (df : list RevenueRecord) fact d :
  process_revenue df (process_distributors_data df)
    = OK (fact, d) →
  map fst d = drop_duplicates (map r_title df) ∧
  NoDup (map fst d) ∧
  (∀ t m, (t, m) ∈ d → m = movie_id_of py_hash t) ∧
  (∀ t, t ∈ map r_title df → dict_lookup d t = Some (movie_id_of py_hash t)).
Proof.
  intros (dates & _ & -> & _)%process_revenue_data_inv.
  assert (map (fun rd : RevenueRecord * DistributorRow => r_title rd.1)
              (merge df (process_distributors_data df)) = map r_title df)
    as Htitles.
  { pose proof (merge_own_dimension df) as Hjoin.
    induction Hjoin as [|r rd l k (Heq & _) _ IH]; simpl; [done|].
    by rewrite Heq, IH. }
  assert (map fst (dict_of_pairs
            (zip (map (fun rd => r_title rd.1)
                      (merge df (process_distributors_data df)))
                 (map (fun rd => movie_id_of py_hash (r_title rd.1))
                      (merge df (process_distributors_data df)))))
          = drop_duplicates (map r_title df)) as Hkeys.
  { rewrite dict_of_pairs_keys, fst_zip, Htitles; [done|].
    by rewrite !length_fmap. }
  assert (∀ t m, (t, m) ∈ dict_of_pairs
            (zip (map (fun rd => r_title rd.1)
                      (merge df (process_distributors_data df)))
                 (map (fun rd => movie_id_of py_hash (r_title rd.1))
                      (merge df (process_distributors_data df))))
          → m = movie_id_of py_hash t) as Hvals.
  { intros t m Hin%dict_of_pairs_elem_of.
    apply elem_of_zip_fmap in Hin as (rd & _ & -> & ->). done. }
  split_and!; [done| |done|].
  - rewrite Hkeys. apply NoDup_drop_duplicates_from.
  - intros t Ht.
    assert (is_Some (dict_lookup
              (dict_of_pairs
                 (zip (map (fun rd => r_title rd.1)
                           (merge df (process_distributors_data df)))
                      (map (fun rd => movie_id_of py_hash (r_title rd.1))
                           (merge df (process_distributors_data df))))) t))
      as [m Hm].
    { apply dict_lookup_keys. rewrite Hkeys. by apply drop_duplicates_elem_of. }
    rewrite Hm. f_equal. apply Hvals. by apply dict_lookup_elem_of.
Qed.

(** X9. The join is an inner join made before anything else: records
    whose distributor has no row in the dimension have no effect at all
    on the result, not even through a date that is no date; with an empty
    dimension the result is an empty fact table and an empty mapping; and
    when names are unique in the dimension the fact table has one row for
    each remaining record, in order. *)
Theorem process_revenue_data_inner_join
    (df : list RevenueRecord) (dd : list DistributorRow) :
  let matched := filter (fun r => r_distributor r ∈ map distributor_name dd) df in
  process_revenue df dd
    = process_revenue matched dd ∧
  process_revenue df [] = OK ([], []) ∧
  (NoDup (map distributor_name dd) →
   ∀ fact d, process_revenue df dd = OK (fact, d) →
             map f_id fact = map r_id matched).
Proof.
  intros matched.
  assert (process_revenue df dd
          = process_revenue matched dd) as Hsame.
  { unfold process_revenue_data. by rewrite (merge_filter df dd). }
  split_and!.
  - exact Hsame.
  - unfold process_revenue_data. by rewrite merge_nil_r.
  - intros Hnd fact d Hok. rewrite Hsame in Hok.
    apply process_revenue_data_rows in Hok.
    assert (Forall2 (fun r rd => rd.1 = r ∧ rd.2 ∈ dd ∧
                       distributor_name rd.2 = r_distributor r)
                    matched (merge matched dd)) as Hjoin.
    { apply merge_one_row_each; [done|].
      apply Forall_forall. intros r Hr.
      by apply list_elem_of_filter in Hr as [? _]. }
    clear Hsame. revert fact Hok.
    generalize (joined_format guess_datetime_format matched dd) as format.
    intros format.
    induction Hjoin as [|r rd l k (Heq & _) _ IH]; intros fact Hrows.
    + by inversion Hrows.
    + inversion Hrows as [|? f ? fact' (Hid & _) Hrest]; subst. simpl.
      rewrite Hid. f_equal. by apply IH.
Qed.

End JoinProperties.

(** ** Enricher and its place between the transformers *)

Section FetchProperties.
Variable omdbapi : string.
Variable requests_get : string -> result Response.

(** X10. Titles are looked up one by one, each on its own: the fetch
    for a mapping made of two parts is the fetch for the first part and
    then the fetch for the second, with the records of the first followed
    by those of the second (and the first error, if there is one); a list
    that is returned never has more records than the mapping has titles;
    and every record in it says [Response] ["True"] and carries an
    integer [movie_id]. *)
Theorem fetch_ombdapi_data_per_title (movies1 movies2 : dict Z) :
  let fetch := fetch_ombdapi_data omdbapi requests_get in
  fetch (movies1 ++ movies2)
  = (records1 ← fetch movies1; records2 ← fetch movies2;
     OK (records1 ++ records2)) ∧
  ∀ records, fetch movies1 = OK records →
    (length records ≤ length movies1)%nat ∧
    ∀ record, record ∈ records →
      get record "Response" = VStr "True" ∧
      ∃ movie_id, get record "movie_id" = VInt movie_id.
Proof.
  intros fetch. split.
  - unfold fetch. induction movies1 as [|[title movie_id] movies IH].
    + simpl. by destruct (fetch_ombdapi_data omdbapi requests_get movies2).
    + change (((title, movie_id) :: movies) ++ movies2)
        with ((title, movie_id) :: (movies ++ movies2)).
      rewrite !fetch_ombdapi_data_cons, IH.
      destruct (get_movie_data omdbapi requests_get title) as [data|e];
        [|done].
      destruct (fetch_ombdapi_data omdbapi requests_get movies) as [rest|e];
        [|done].
      destruct (fetch_ombdapi_data omdbapi requests_get movies2) as [rest2|e];
        [|done].
      by destruct data as [[|entry data]|].
  - intros records Hfetch. split.
    + by eapply fetch_ombdapi_data_length.
    + intros record Hin.
      destruct (fetch_ombdapi_data_elem_of _ _ _ _ _ Hfetch Hin)
        as (t & m & _ & ? & ?).
      eauto.
Qed.

End FetchProperties.

Section CrossTableProperties.
Variable py_hash : string -> Z.
Variable guess_datetime_format : string -> option string.
Variable strptime : string -> string -> option Timestamp.
Variable dateutil_parse : string -> option Timestamp.
Variable omdbapi : string.
Variable requests_get : string -> result Response.
Variable to_datetime_format_date : pyval -> result pyval.
Variable json_dumps : pyval -> string.

(** X11. In a run, every row of the movie dimension and every row of
    the bridge carries a movie id that some row of the fact table carries
    too, and the movie dimension has at most one row per title of the
    title mapping. (The converse fails: a title the provider does not
    resolve is in the fact table only.) *)
Theorem movie_rows_have_fact_rows
    (df : list RevenueRecord) (dd : list DistributorRow) fact d md dm dg br :
  process_revenue_data py_hash guess_datetime_format strptime dateutil_parse
    df dd = OK (fact, d) →
  fetch_ombdapi_data omdbapi requests_get d = OK md →
  process_movies_data to_datetime_format_date json_dumps md = OK (dm, dg, br) →
  Forall (fun row => ∃ m, get row "movie_id" = VInt m ∧ m ∈ map f_movie_id fact)
         dm ∧
  Forall (fun b => ∃ m, b_movie_id b = VInt m ∧ m ∈ map f_movie_id fact) br ∧
  (length dm ≤ length d)%nat.
Proof.
  intros Hrev Hfetch Hmov.
  assert (∀ record, record ∈ md →
            ∃ m, get record "movie_id" = VInt m ∧ m ∈ map f_movie_id fact)
    as Hfetched.
  { intros record Hrec.
    destruct (fetch_ombdapi_data_elem_of _ _ _ _ _ Hfetch Hrec)
      as (t & m & Hin & Hid & _).
    exists m. split; [done|].
    pose proof (process_revenue_data_rows _ _ _ _ _ _ _ _ Hrev) as Hrows.
    apply process_revenue_data_inv in Hrev as (dates & _ & -> & _).
    apply dict_of_pairs_elem_of, elem_of_zip_fmap in Hin as (rd & Hrd & _ & ->).
    apply list_elem_of_lookup in Hrd as [i Hi].
    destruct (Forall2_lookup_l _ _ _ _ _ Hrows Hi) as (f & Hf & _ & <- & _).
    apply list_elem_of_fmap. exists f. split; [done|].
    apply list_elem_of_lookup. eauto. }
  apply process_movies_data_inv in Hmov as (_ & _ & (rows & Hrows & ->) & Hbr).
  split_and!.
  - unfold replace_na. apply Forall_fmap.
    eapply Forall2_Forall_r; [exact Hrows|].
    apply Forall_forall. intros record Hrec row Hrow.
    destruct (Hfetched record Hrec) as (m & Hm & Hin).
    exists m. split; [|done]. simpl.
    by rewrite get_replace_row, (movie_row_movie_id _ _ _ _ Hrow), Hm.
  - eapply Forall_impl; [exact Hbr|]. intros b [Hb _].
    apply list_elem_of_fmap in Hb as (record & -> & Hrec).
    by apply Hfetched.
  - pose proof (fetch_ombdapi_data_length _ _ _ _ Hfetch) as Hle.
    pose proof (Forall2_length _ _ _ Hrows) as Hlen.
    unfold replace_na. rewrite length_fmap.
    unfold Row, dict in *. lia.
Qed.

End CrossTableProperties.

(** ** More on MovieNormalizer *)

Lemma split_go_not_nil sep skip cur s : split_go sep skip cur s ≠ [].
Proof.
  revert skip cur. induction s as [|c s IH]; intros skip cur.
  - discriminate.
  - cbn [split_go]. destruct skip; [|apply IH].
    destruct (String.prefix sep (String c s)); [discriminate|apply IH].
Qed.

Section BridgeProperties.
Variable to_datetime_format_date : pyval -> result pyval.
Variable json_dumps : pyval -> string.

Lemma genre_loop_rows movie_id gs ns dg br dg' br' :
  genres_inv ns dg →
  foldM (genre_step movie_id) gs (dg, br) = OK (dg', br') →
  ∃ new, br' = br ++ new ∧
         Forall2 (fun g b => b_movie_id b = movie_id ∧ (g, b_genre_id b) ∈ dg')
                 gs new.
Proof.
  revert ns dg br. induction gs as [|g gs IH]; intros ns dg br Hinv.
  - intros [= <- <-]. exists []. rewrite app_nil_r. split; [done|constructor].
  - intros ([dg1 br1] & Hstep & Hrest)%foldM_OK_inv.
    destruct (genre_step_inv _ _ _ _ _ _ _ Hinv Hstep)
      as (Hinv1 & _ & gid & Hgid & ->).
    destruct (genre_loop_inv _ _ _ _ _ _ _ Hinv1 Hrest) as (_ & Hsub & _).
    destruct (IH _ _ _ Hinv1 Hrest) as (new & -> & Hnew).
    eexists. rewrite <- app_assoc. split; [done|]. simpl.
    constructor; [|done]. split; [done|]. by apply Hsub.
Qed.

Lemma movies_loop_rows md ns dg dm br dg' dm' br' :
  genres_inv ns dg →
  foldM (movie_step to_datetime_format_date json_dumps) md (dg, dm, br)
    = OK (dg', dm', br') →
  Forall (fun data => ∃ s, get_default data "Genre" (VStr "") = VStr s) md ∧
  ∃ new, br' = br ++ new ∧
         Forall2 (fun mg b => b_movie_id b = mg.1 ∧ (mg.2, b_genre_id b) ∈ dg')
                 (genre_occurrences md) new.
Proof.
  revert ns dg dm br. induction md as [|data md IH]; intros ns dg dm br Hinv.
  - intros [= <- <- <-]. split; [constructor|].
    exists []. rewrite app_nil_r. split; [done|constructor].
  - intros ([[dg1 dm1] br1] & Hstep & Hrest)%foldM_OK_inv.
    destruct (movie_step_inv _ _ _ _ _ _ _ _ _ _ Hinv Hstep) as (Hinv1 & _).
    destruct (movies_loop_inv _ _ _ _ _ _ _ _ _ _ Hinv1 Hrest) as (_ & Hsub & _).
    destruct (IH _ _ _ _ Hinv1 Hrest) as (Hstr & new2 & -> & Hnew2).
    unfold movie_step in Hstep.
    destruct (get_default data "Genre" (VStr "")) as [| | | |s| | |] eqn:Hgenre;
      simpl in Hstep; try done.
    destruct (foldM (genre_step (get data "movie_id")) (str_split s ", ") (dg, br))
      as [[dg2 br2]|e] eqn:Hloop; simpl in Hstep; [|done].
    destruct (movie_row _ _ data) as [row|e]; simpl in Hstep; [|done].
    injection Hstep as ? ? ?. subst.
    destruct (genre_loop_rows _ _ _ _ _ _ _ Hinv Hloop) as (new1 & -> & Hnew1).
    split; [constructor; by eauto|].
    exists (new1 ++ new2). rewrite <- app_assoc. split; [done|].
    unfold genre_occurrences. simpl. apply Forall2_app; [|exact Hnew2].
    unfold genres_of. rewrite Hgenre. apply Forall2_fmap_l.
    eapply Forall2_impl; [exact Hnew1|].
    intros g b [? ?]. split; [done|]. by apply Hsub.
Qed.

(** X12. When [process_movies_data] returns, the bridge has one row for
    every genre name in every record's Genre field, in reading order (a
    name repeated in a field gives repeated rows), and the row links the
    record's movie id to the id that name has in the genre dimension. *)
Theorem bridge_one_row_per_genre_occurrence (md : list (dict pyval)) dm dg br :
  process_movies_data to_datetime_format_date json_dumps md = OK (dm, dg, br) →
  Forall2 (fun mg b =>
             b_movie_id b = mg.1 ∧
             {| genre_id := b_genre_id b; genre_name := mg.2 |} ∈ dg)
          (genre_occurrences md) br ∧
  length br = length (flat_map genres_of md).
Proof.
  unfold process_movies_data.
  destruct (foldM _ md _) as [[[dg1 dm1] br1]|e] eqn:Hloop; simpl; [|done].
  intros [= <- <- <-].
  assert (genres_inv [] []) as Hinv0.
  { split; [done|]. apply not_elem_of_nil. }
  destruct (movies_loop_rows _ _ _ _ _ _ _ _ Hinv0 Hloop) as (_ & new & -> & Hnew).
  simpl in *.
  assert (Forall2 (fun mg b =>
             b_movie_id b = mg.1 ∧
             {| genre_id := b_genre_id b; genre_name := mg.2 |}
               ∈ map (fun kv : string * Z =>
                        {| genre_id := kv.2; genre_name := kv.1 |}) dg1)
          (genre_occurrences md) new) as Hrows.
  { eapply Forall2_impl; [exact Hnew|]. intros mg b [? Hin]. split; [done|].
    apply list_elem_of_fmap. by exists (mg.2, b_genre_id b). }
  split; [done|].
  rewrite <- (Forall2_length _ _ _ Hrows). unfold genre_occurrences. clear.
  induction md as [|data md IH]; [done|].
  simpl. by rewrite !length_app, IH, length_fmap.
Qed.

(** X13. When [process_movies_data] returns, the movie dimension has one
    row per record, in order, whose [movie_id] is the record's (made null
    if it were the text ["N/A"] or empty), and every record has at least
    one row in the bridge. *)
Theorem every_movie_has_a_bridge_row (md : list (dict pyval)) dm dg br :
  process_movies_data to_datetime_format_date json_dumps md = OK (dm, dg, br) →
  Forall2 (fun data row => get row "movie_id" = replace_cell (get data "movie_id"))
          md dm ∧
  ∀ data, data ∈ md → ∃ b, b ∈ br ∧ b_movie_id b = get data "movie_id".
Proof.
  intros Hok. split.
  - apply process_movies_data_inv in Hok as (_ & _ & (rows & Hrows & ->) & _).
    unfold replace_na. apply Forall2_fmap_r.
    eapply Forall2_impl; [exact Hrows|]. intros data row Hrow. simpl.
    by rewrite get_replace_row, (movie_row_movie_id _ _ _ _ Hrow).
  - unfold process_movies_data in Hok.
    destruct (foldM _ md _) as [[[dg1 dm1] br1]|e] eqn:Hloop; simpl in Hok;
      [|done].
    injection Hok as <- <- <-.
    assert (genres_inv [] []) as Hinv0.
    { split; [done|]. apply not_elem_of_nil. }
    destruct (movies_loop_rows _ _ _ _ _ _ _ _ Hinv0 Hloop)
      as (Hstr & new & -> & Hnew).
    simpl. intros data Hdata.
    rewrite Forall_forall in Hstr. destruct (Hstr data Hdata) as [s Hs].
    assert (∃ g, (get data "movie_id", g) ∈ genre_occurrences md) as [g Hg].
    { destruct (str_split s ", ") as [|g gs] eqn:Hsplit.
      - by apply split_go_not_nil in Hsplit.
      - exists g. unfold genre_occurrences.
        apply list_elem_of_In, in_flat_map. exists data.
        split; [by apply list_elem_of_In|].
        apply list_elem_of_In, list_elem_of_fmap. exists g. split; [done|].
        unfold genres_of. rewrite Hs, Hsplit. by left. }
    apply list_elem_of_lookup in Hg as [i Hi].
    destruct (Forall2_lookup_l _ _ _ _ _ Hnew Hi) as (b & Hb & Hmid & _).
    exists b. split; [|done]. apply list_elem_of_lookup. eauto.
Qed.

End BridgeProperties.

(** ** String methods *)

Lemma str_app_cons c s t : String c s +:+ t = String c (s +:+ t).
Proof. reflexivity. Qed.

Lemma str_app_nil_r s : s +:+ "" = s.
Proof. induction s as [|c s IH]; [done|]. by rewrite str_app_cons, IH. Qed.

Lemma str_app_assoc s1 s2 s3 : (s1 +:+ s2) +:+ s3 = s1 +:+ (s2 +:+ s3).
Proof.
  induction s1 as [|c s1 IH]; [done|]. by rewrite !str_app_cons, IH.
Qed.

Lemma str_length_app s1 s2 :
  String.length (s1 +:+ s2) = (String.length s1 + String.length s2)%nat.
Proof.
  induction s1 as [|c s1 IH]; [done|].
  rewrite str_app_cons. cbn [String.length Nat.add]. by rewrite IH.
Qed.

Lemma prefix_true_app a s :
  String.prefix a s = true → ∃ rest, s = a +:+ rest.
Proof.
  revert a. induction s as [|c s IH]; intros [|c' a]; cbn [String.prefix].
  - intros _. by exists "".
  - done.
  - intros _. by eexists.
  - destruct (Ascii.ascii_dec c' c) as [->|]; [|done].
    intros [rest ->]%IH. by exists rest.
Qed.

Lemma split_go_skip sep p cur rest :
  split_go sep (String.length p) cur (p +:+ rest) = split_go sep 0 cur rest.
Proof.
  induction p as [|c p IH]; [done|].
  rewrite str_app_cons. cbn [String.length split_go]. apply IH.
Qed.

Lemma str_join_cons sep p pieces :
  pieces ≠ [] → str_join sep (p :: pieces) = p +:+ sep +:+ str_join sep pieces.
Proof. by destruct pieces. Qed.

Lemma str_join_split_go sep cur s :
  sep ≠ "" → str_join sep (split_go sep 0 cur s) = cur +:+ s.
Proof.
  intros Hsep.
  assert (∀ n s cur, (String.length s ≤ n)%nat →
            str_join sep (split_go sep 0 cur s) = cur +:+ s) as Hgen.
  { clear s cur. induction n as [|n IH]; intros s cur Hlen.
    - destruct s; [|simpl in Hlen; lia].
      cbn [split_go str_join]. by rewrite str_app_nil_r.
    - destruct s as [|c s].
      { cbn [split_go str_join]. by rewrite str_app_nil_r. }
      cbn [split_go].
      destruct (String.prefix sep (String c s)) eqn:Hpre.
      + destruct sep as [|c0 sep']; [done|].
        apply prefix_true_app in Hpre as [rest Hrest].
        rewrite str_app_cons in Hrest. injection Hrest as <- ->.
        cbn [String.length Nat.sub]. rewrite Nat.sub_0_r, split_go_skip.
        rewrite str_join_cons by apply split_go_not_nil.
        rewrite IH.
        * rewrite str_app_cons. reflexivity.
        * cbn [String.length] in Hlen. rewrite str_length_app in Hlen. lia.
      + rewrite IH by (cbn [String.length] in Hlen; lia).
        by rewrite str_app_assoc. }
  by apply (Hgen (String.length s)).
Qed.

Lemma str_split_join (s sep : string) :
  sep ≠ "" → str_join sep (str_split s sep) = s.
Proof. intros Hsep. unfold str_split. by rewrite str_join_split_go. Qed.

(** X14. Splitting the Genre field loses nothing: the genre names of a
    record, joined again with [", "], are its Genre field, and there is
    always at least one name (the empty name, when the field is empty or
    missing). *)
Theorem genres_of_join (data : dict pyval) (s : string) :
  get_default data "Genre" (VStr "") = VStr s →
  str_join ", " (genres_of data) = s ∧ genres_of data ≠ [].
Proof.
  intros Hs. unfold genres_of. rewrite Hs. split.
  - by apply str_split_join.
  - apply split_go_not_nil.
Qed.

Lemma prefix_char c a s :
  String.prefix (String c "") (String a s) = bool_decide (c = a).
Proof.
  simpl. destruct (Ascii.ascii_dec c a) as [->|Hne].
  - rewrite bool_decide_true by done. by destruct s.
  - by rewrite bool_decide_false.
Qed.

(** Removing a character: [s.replace(c, "")]. *)
Lemma str_replace_char_gone c s : ¬ char_in c (str_replace s (String c "") "").
Proof.
  unfold str_replace. induction s as [|a s IH]; [by intros []|].
  cbn [replace_go]. rewrite prefix_char.
  destruct (decide (c = a)) as [->|Hne].
  - rewrite bool_decide_true by done. exact IH.
  - rewrite bool_decide_false by done. simpl. intros [?|?]; [congruence|done].
Qed.

Lemma str_replace_char_subset c b s :
  char_in b (str_replace s (String c "") "") → char_in b s.
Proof.
  unfold str_replace. induction s as [|a s IH]; [done|].
  cbn [replace_go]. rewrite prefix_char.
  destruct (decide (c = a)) as [->|Hne].
  - rewrite bool_decide_true by done. intros ?%IH. by right.
  - rewrite bool_decide_false by done. simpl. intros [?|?%IH]; [by left|by right].
Qed.

(** ** Columns and cells of the frames *)

Section FrameProperties.
Variable to_datetime_format_date : pyval -> result pyval.
Variable json_dumps : pyval -> string.

Local Ltac movie_row_binds :=
  unfold movie_row;
  repeat match goal with
         | |- context [mbind _ ?m] =>
             let E := fresh "E" in destruct m eqn:E; simpl; [|done]
         end;
  intros [= <-].

Lemma movie_row_box_office_total data row :
  movie_row to_datetime_format_date json_dumps data = OK row →
  get row "box_office_total" = VNone ∨
  ∃ s, get row "box_office_total"
       = VStr (str_replace (str_replace s "$" "") "," "").
Proof.
  movie_row_binds.
  match goal with
  | H : (if negb (py_eq_str (get data "BoxOffice") "N/A") then _ else _) = _ |- _ =>
      rename H into Hbox
  end.
  destruct (py_eq_str (get data "BoxOffice") "N/A"); simpl in Hbox.
  - injection Hbox as <-. by left.
  - destruct (get_default data "BoxOffice" (VStr "")); simpl in Hbox; try done.
    injection Hbox as <-. right. eauto.
Qed.

Lemma replace_row_keys (row : Row) :
  map fst (map (fun kv : string * pyval => (kv.1, replace_cell kv.2)) row)
  = map fst row.
Proof. rewrite <- list_fmap_compose. done. Qed.

Lemma replace_cell_cases v : replace_cell v = VNone ∨ replace_cell v = v.
Proof.
  unfold replace_cell. destruct (py_eq_str v "N/A" || py_eq_str v ""); tauto.
Qed.

Lemma replace_cell_not_sentinel v :
  replace_cell v ≠ VStr "N/A" ∧ replace_cell v ≠ VStr "".
Proof.
  unfold replace_cell.
  destruct (py_eq_str v "N/A") eqn:E1; simpl; [done|].
  destruct (py_eq_str v "") eqn:E2; simpl; [done|].
  split; intros ->; done.
Qed.

(** X15. Every row of the movie dimension has exactly the columns that
    the [dim_movies] schema declares, in the same order. *)
Theorem movie_dimension_columns (md : list (dict pyval)) dm dg br :
  process_movies_data to_datetime_format_date json_dumps md = OK (dm, dg, br) →
  ∃ schema, get_schema "dim_movies" = OK schema ∧
            Forall (fun row => map fst row = map fst schema) dm.
Proof.
  intros (_ & _ & (rows & Hrows & ->) & _)%process_movies_data_inv.
  eexists. split; [reflexivity|].
  unfold replace_na. apply Forall_fmap.
  eapply Forall2_Forall_r; [exact Hrows|].
  apply Forall_forall. intros data _ row Hrow. simpl.
  rewrite replace_row_keys. revert Hrow. movie_row_binds. reflexivity.
Qed.

(** X17. In the movie dimension no cell is the text ["N/A"] or the
    empty text; an [imdb_votes] cell that is a text has no comma in it,
    and a [box_office_total] cell that is a text has neither a dollar
    sign nor a comma. *)
Theorem movie_dimension_cells_clean (md : list (dict pyval)) dm dg br :
  process_movies_data to_datetime_format_date json_dumps md = OK (dm, dg, br) →
  Forall (fun row =>
            (∀ col, get row col ≠ VStr "N/A" ∧ get row col ≠ VStr "") ∧
            (∀ s, get row "imdb_votes" = VStr s → ¬ char_in ","%char s) ∧
            (∀ s, get row "box_office_total" = VStr s →
                  ¬ char_in "$"%char s ∧ ¬ char_in ","%char s))
         dm.
Proof.
  intros (_ & _ & (rows & Hrows & ->) & _)%process_movies_data_inv.
  unfold replace_na. apply Forall_fmap.
  eapply Forall2_Forall_r; [exact Hrows|].
  apply Forall_forall. intros data _ row Hrow. simpl. split_and!.
  - intros col. rewrite get_replace_row. apply replace_cell_not_sentinel.
  - intros s. rewrite get_replace_row.
    destruct (movie_row_imdb_votes _ _ _ _ Hrow) as (votes & _ & ->).
    destruct (replace_cell_cases (VStr (str_replace votes "," ""))) as [->| ->];
      [done|].
    intros [= <-]. apply str_replace_char_gone.
  - intros s. rewrite get_replace_row.
    destruct (movie_row_box_office_total _ _ Hrow) as [->|[box ->]]; [done|].
    destruct (replace_cell_cases
                (VStr (str_replace (str_replace box "$" "") "," "")))
      as [->| ->]; [done|].
    intros [= <-]. split.
    + intros Hin%str_replace_char_subset. by apply str_replace_char_gone in Hin.
    + apply str_replace_char_gone.
Qed.

(** X18. [process_movies_data] returns only for records that all have
    a text in Genre with no empty name in it, a text in Runtime and a
    text in imdbVotes; a record without one of them makes the call
    raise. *)
Theorem process_movies_data_needs_fields (md : list (dict pyval)) dm dg br :
  process_movies_data to_datetime_format_date json_dumps md = OK (dm, dg, br) →
  Forall (fun data =>
            (∃ s, get data "Genre" = VStr s ∧ "" ∉ str_split s ", ") ∧
            (∃ s, get data "Runtime" = VStr s) ∧
            (∃ s, get data "imdbVotes" = VStr s))
         md.
Proof.
  intros Hok.
  pose proof (process_movies_data_inv _ _ _ _ _ _ Hok)
    as (Hne & _ & (rows & Hrows & _) & _).
  unfold process_movies_data in Hok.
  destruct (foldM _ md _) as [[[dg1 dm1] br1]|e] eqn:Hloop; simpl in Hok; [|done].
  assert (genres_inv [] []) as Hinv0.
  { split; [done|]. apply not_elem_of_nil. }
  destruct (movies_loop_rows _ _ _ _ _ _ _ _ _ _ Hinv0 Hloop) as (Hstr & _).
  apply Forall_forall. intros data Hdata.
  rewrite Forall_forall in Hstr. destruct (Hstr data Hdata) as [s Hs].
  apply list_elem_of_lookup in Hdata as [i Hi].
  destruct (Forall2_lookup_l _ _ _ _ _ Hrows Hi) as (row & _ & Hrow).
  split_and!.
  - assert ("" ∉ str_split s ", ") as Hnot.
    { intros Hin. apply Hne. apply list_elem_of_In, in_flat_map.
      exists data. split; [by eapply list_elem_of_In, list_elem_of_lookup_2|].
      unfold genres_of. rewrite Hs. by apply list_elem_of_In. }
    exists s. split; [|done].
    unfold get, get_default in *.
    destruct (dict_lookup data "Genre") as [v|]; simpl in *; [done|].
    injection Hs as <-. destruct Hnot. by left.
  - pose proof (movie_row_runtime_minutes _ _ _ _ Hrow) as Hrt.
    destruct (py_eq_str (get data "Runtime") "N/A") eqn:Hna.
    + apply py_eq_str_true in Hna. eauto.
    + destruct Hrt as (rt & ? & _). eauto.
  - destruct (movie_row_imdb_votes _ _ _ _ Hrow) as (votes & ? & _). eauto.
Qed.

End FrameProperties.

(** X16. The rows of the four other frames have the columns of their
    schemas: in schema order for the genre dimension, the bridge and the
    fact table; for the distributor dimension the same two columns with
    the name first, where the schema has the id first. *)
Theorem frames_have_schema_columns
    (genres : list GenreRow) (bridge : list BridgeRow)
    (distributors : list DistributorRow) (facts : list FactRow) :
  (∃ schema, get_schema "dim_genres" = OK schema ∧
     Forall (fun row => map fst row = map fst schema) (genre_rows genres)) ∧
  (∃ schema, get_schema "bridge_movie_genre" = OK schema ∧
     Forall (fun row => map fst row = map fst schema) (bridge_rows bridge)) ∧
  (∃ schema, get_schema "fact_revenues" = OK schema ∧
     Forall (fun row => map fst row = map fst schema) (fact_rows facts)) ∧
  (∃ schema, get_schema "dim_distributor" = OK schema ∧
     Forall (fun row => map fst row = reverse (map fst schema))
            (distributor_rows distributors)).
Proof.
  split_and!; eexists; (split; [reflexivity|]);
    apply Forall_fmap, Forall_forall; intros; reflexivity.
Qed.

(** * The further properties on the sample data *)


Lemma save_to_sqlite_unknown_table_witness :
  ("dim_actors" ∉ table_names) ∧
  save_to_sqlite sample_to_sql_insert (dict_frame (genre_rows sample_dim_genres))
    "dim_actors" ∅ = Raise ValueError.
Proof.
  assert ("dim_actors" ∉ table_names) as Hno.
  { unfold table_names. rewrite !not_elem_of_cons. split_and!; try done.
    apply not_elem_of_nil. }
  split; [exact Hno|].
  exact (save_to_sqlite_unknown_table sample_to_sql_insert
           (dict_frame (genre_rows sample_dim_genres)) "dim_actors" ∅ Hno).
Defined.

Lemma save_to_sqlite_commute_witness :
  let genres := dict_frame (genre_rows sample_dim_genres) in
  let bridge := dict_frame (bridge_rows sample_bridge) in
  ∃ conn2,
    save_to_sqlite sample_to_sql_insert bridge "bridge_movie_genre" ∅ = OK conn2 ∧
    save_to_sqlite sample_to_sql_insert genres "dim_genres" conn2
    = (conn1 ← save_to_sqlite sample_to_sql_insert genres "dim_genres" ∅;
       save_to_sqlite sample_to_sql_insert bridge "bridge_movie_genre" conn1).
Proof.
  intros genres bridge.
  refine (save_to_sqlite_commute sample_to_sql_insert genres bridge
            "dim_genres" "bridge_movie_genre" ∅ _ _ _ _ _).
  - done.
  - reflexivity.
  - reflexivity.
Defined.


Lemma run_head_limit_witness :
  let row := {| r_id := "r"; r_title := "A"; r_date := "2020-12-25";
                r_revenue := VInt 1; r_theaters := VNone;
                r_distributor := "X" |} in
  run sample_hash sample_guess_datetime_format sample_strptime
      sample_dateutil_parse sample_omdbapi sample_requests_get
      sample_to_datetime_format_date sample_json_dumps sample_to_sql_insert
      (replicate 900 row ++ sample_csv) ∅
  = run sample_hash sample_guess_datetime_format sample_strptime
      sample_dateutil_parse sample_omdbapi sample_requests_get
      sample_to_datetime_format_date sample_json_dumps sample_to_sql_insert
      (replicate 900 row) ∅.
Proof.
  intros row. apply run_head_limit. rewrite length_replicate. lia.
Defined.

Lemma run_returns_witness :
  ∃ conn',
    run sample_hash sample_guess_datetime_format sample_strptime
        sample_dateutil_parse sample_omdbapi sample_requests_get
        sample_to_datetime_format_date sample_json_dumps sample_to_sql_insert
        sample_csv ∅ = OK conn'.
Proof.
  apply (run_returns sample_hash sample_guess_datetime_format sample_strptime
           sample_dateutil_parse sample_omdbapi
           sample_requests_get sample_to_datetime_format_date
           sample_json_dumps sample_to_sql_insert sample_csv ∅
           sample_fact sample_movie_id_dict sample_movies_data
           sample_dim_movies sample_dim_genres sample_bridge).
  - vm_compute. reflexivity.
  - vm_compute. reflexivity.
  - vm_compute. reflexivity.
  - intros table df. by exists df.
Defined.

Lemma movie_id_dict_distinct_titles_witness :
  map fst sample_movie_id_dict = drop_duplicates (map r_title sample_csv) ∧
  NoDup (map fst sample_movie_id_dict) ∧
  (∀ t m, (t, m) ∈ sample_movie_id_dict → m = movie_id_of sample_hash t) ∧
  (∀ t, t ∈ map r_title sample_csv →
        dict_lookup sample_movie_id_dict t = Some (movie_id_of sample_hash t)).
Proof.
  apply (movie_id_dict_distinct_titles sample_hash sample_guess_datetime_format
           sample_strptime sample_dateutil_parse
           sample_csv sample_fact sample_movie_id_dict).
  vm_compute. reflexivity.
Defined.

Lemma movie_rows_have_fact_rows_witness :
  Forall (fun row => ∃ m, get row "movie_id" = VInt m ∧
                          m ∈ map f_movie_id sample_fact) sample_dim_movies ∧
  Forall (fun b => ∃ m, b_movie_id b = VInt m ∧ m ∈ map f_movie_id sample_fact)
         sample_bridge ∧
  (length sample_dim_movies ≤ length sample_movie_id_dict)%nat.
Proof.
  apply (movie_rows_have_fact_rows sample_hash sample_guess_datetime_format
           sample_strptime sample_dateutil_parse sample_omdbapi
           sample_requests_get sample_to_datetime_format_date sample_json_dumps
           sample_csv (process_distributors_data sample_csv)
           sample_fact sample_movie_id_dict sample_movies_data
           sample_dim_movies sample_dim_genres sample_bridge).
  - vm_compute. reflexivity.
  - vm_compute. reflexivity.
  - vm_compute. reflexivity.
Defined.

Lemma bridge_one_row_per_genre_occurrence_witness :
  Forall2 (fun mg b =>
             b_movie_id b = mg.1 ∧
             {| genre_id := b_genre_id b; genre_name := mg.2 |} ∈ sample_dim_genres)
          (genre_occurrences sample_movies_data) sample_bridge ∧
  length sample_bridge = length (flat_map genres_of sample_movies_data).
Proof.
  apply (bridge_one_row_per_genre_occurrence sample_to_datetime_format_date
           sample_json_dumps sample_movies_data sample_dim_movies).
  vm_compute. reflexivity.
Defined.

Lemma every_movie_has_a_bridge_row_witness :
  Forall2 (fun data row => get row "movie_id" = replace_cell (get data "movie_id"))
          sample_movies_data sample_dim_movies ∧
  ∀ data, data ∈ sample_movies_data →
          ∃ b, b ∈ sample_bridge ∧ b_movie_id b = get data "movie_id".
Proof.
  apply (every_movie_has_a_bridge_row sample_to_datetime_format_date
           sample_json_dumps sample_movies_data sample_dim_movies
           sample_dim_genres sample_bridge).
  vm_compute. reflexivity.
Defined.

Lemma genres_of_join_witness :
  str_join ", " (genres_of sample_record_A) = "Drama, War" ∧
  genres_of sample_record_A ≠ [].
Proof. apply (genres_of_join sample_record_A "Drama, War"). reflexivity. Defined.

Lemma movie_dimension_columns_witness :
  ∃ schema, get_schema "dim_movies" = OK schema ∧
            Forall (fun row => map fst row = map fst schema) sample_dim_movies.
Proof.
  apply (movie_dimension_columns sample_to_datetime_format_date
           sample_json_dumps sample_movies_data sample_dim_movies
           sample_dim_genres sample_bridge).
  vm_compute. reflexivity.
Defined.

Lemma movie_dimension_cells_clean_witness :
  Forall (fun row =>
            (∀ col, get row col ≠ VStr "N/A" ∧ get row col ≠ VStr "") ∧
            (∀ s, get row "imdb_votes" = VStr s → ¬ char_in ","%char s) ∧
            (∀ s, get row "box_office_total" = VStr s →
                  ¬ char_in "$"%char s ∧ ¬ char_in ","%char s))
         sample_dim_movies.
Proof.
  apply (movie_dimension_cells_clean sample_to_datetime_format_date
           sample_json_dumps sample_movies_data sample_dim_movies
           sample_dim_genres sample_bridge).
  vm_compute. reflexivity.
Defined.

Lemma process_movies_data_needs_fields_witness :
  Forall (fun data =>
            (∃ s, get data "Genre" = VStr s ∧ "" ∉ str_split s ", ") ∧
            (∃ s, get data "Runtime" = VStr s) ∧
            (∃ s, get data "imdbVotes" = VStr s))
         sample_movies_data.
Proof.
  apply (process_movies_data_needs_fields sample_to_datetime_format_date
           sample_json_dumps sample_movies_data sample_dim_movies
           sample_dim_genres sample_bridge).
  vm_compute. reflexivity.
Defined.
